(** * github_key: reconciliation of a user's SSH keys on GitHub

    A shallow embedding of [lib/ansible/modules/extras/source_control/github_key.py]
    and the properties of its listing, reconciliation and validation code.

    The module talks to the network through [fetch_url] and leaves the
    process through [fail_json]; both are modelled by a state-and-error
    monad over a world that holds the remote service, the log of the
    requests sent so far and the clock read by [datetime.utcnow]. *)

From Stdlib Require Import ZArith String Ascii List Lia.
From stdpp Require Import base decidable option list strings gmap pretty.

Local Open Scope string_scope.
Local Open Scope Z_scope.

(** ** Strings *)

(** The double quote character, written by its code. *)
Definition dquote : ascii := Eval cbv in ascii_of_nat 34.
Definition tab : ascii := Eval cbv in ascii_of_nat 9.
Definition space : ascii := " "%char.

Definition str (c : ascii) : string := String c EmptyString.

(** Python's [bool(s)] on a string. *)
Definition truthy (s : string) : bool :=
  match s with EmptyString => false | String _ _ => true end.

(** Python's [s.split(' ')]: every single space separates, so that
    consecutive spaces yield empty parts and [''.split(' ') = ['']]. *)
Fixpoint split (sep : ascii) (s : string) : list string :=
  match s with
  | EmptyString => [EmptyString]
  | String c s' =>
      if Ascii.eqb c sep then EmptyString :: split sep s'
      else match split sep s' with
           | part :: parts => String c part :: parts
           | [] => [str c]
           end
  end.

(** Python's [sep.join(parts)]. *)
Fixpoint join (sep : string) (parts : list string) : string :=
  match parts with
  | [] => EmptyString
  | [p] => p
  | p :: ps => p +:+ sep +:+ join sep ps
  end.

(** The key of [main] cut to its first two parts (lines 201 to 207);
    [None] stands for the call of [fail_json] on fewer than two parts. *)
Definition normalize_pubkey (pubkey : string) : option string :=
  let pubkey_parts := split space pubkey in
  if (length pubkey_parts <? 2)%nat then None
  else Some (join " " (take 2 pubkey_parts)).

(** ** Data model *)

(** A key record as the API returns it (a JSON object in the source). *)
Record Key := mkKey {
  key_id : Z;
  key_key : string;
  key_title : string;
  key_url : string;
  key_created_at : string;
  key_read_only : bool;
  key_verified : bool
}.

Global Instance Key_eq_dec : EqDecision Key.
Proof. solve_decision. Defined.

Inductive Method := GET | POST | DELETE.

Global Instance Method_eq_dec : EqDecision Method.
Proof. solve_decision. Defined.

Definition method_name (m : Method) : string :=
  match m with GET => "GET" | POST => "POST" | DELETE => "DELETE" end.

(** The body of the create request, [json.dumps({'title': name, 'key': pubkey})]. *)
Record NewKey := mkNewKey { new_title : string; new_key : string }.

Record Request := mkRequest {
  req_method : Method;
  req_url : string;
  req_data : option NewKey;
  req_headers : list (string * string)
}.

(** What [response.read()] holds, already parsed: the API answers with an
    array of keys, one key, or nothing. *)
Inductive Content :=
  | JArray (ks : list Key)
  | JObject (k : Key)
  | NoContent.

(** The [info] dictionary of [fetch_url]: status, message and the
    response headers under their lower-case names. *)
Record Info := mkInfo {
  status : Z;
  msg : string;
  headers : gmap string string
}.

Record GitHubResponse := mkGitHubResponse {
  content : Content;
  info : Info
}.

Inductive Error :=
  | FailJson (m : string)
  | AttributeError (m : string)
  | TypeError
  | ValueError.

Inductive Outcome (A : Type) :=
  | Return (a : A)
  | Raise (e : Error)
  | OutOfFuel.
Arguments Return {A} a.
Arguments Raise {A} e.
Arguments OutOfFuel {A}.

(** ** The clock and [strftime] *)

Record datetime := mkDatetime {
  year : N; month : N; day : N; hour : N; minute : N; second : N
}.

Definition digit (n : N) : ascii := ascii_of_N (48 + n mod 10).

(** [%m], [%d], [%H], [%M] and [%S]: two digits, zero padded. *)
Definition fmt2 (n : N) : string :=
  String (digit (n / 10)) (String (digit n) EmptyString).

(** [%Y] for the four-digit years [utcnow] returns. *)
Definition fmt4 (n : N) : string :=
  String (digit (n / 1000)) (String (digit (n / 100)) (fmt2 n)).

(** [datetime.strftime(now, '%Y-%m-%dT%H:%M:%SZ')]. *)
Definition strftime (now : datetime) : string :=
  fmt4 (year now) +:+ "-" +:+ fmt2 (month now) +:+ "-" +:+ fmt2 (day now)
  +:+ "T" +:+ fmt2 (hour now) +:+ ":" +:+ fmt2 (minute now) +:+ ":"
  +:+ fmt2 (second now) +:+ "Z".

Definition API_BASE : string := "https://api.github.com".

(** ** The regular expression of [links] *)

(** The longest prefix without [stop], and what follows it: a greedy
    run of characters other than [stop]. *)
Fixpoint span_not (stop : ascii) (s : string) : string * string :=
  match s with
  | EmptyString => (EmptyString, EmptyString)
  | String c s' =>
      if Ascii.eqb c stop then (EmptyString, s)
      else let (p, r) := span_not stop s' in (String c p, r)
  end.

Fixpoint strip_prefix (p s : string) : option string :=
  match p, s with
  | EmptyString, _ => Some s
  | String a p', String b s' =>
      if Ascii.eqb a b then strip_prefix p' s' else None
  | String _ _, EmptyString => None
  end.

(** One match of the pattern of [links] at the start of [s]: an opening
    angle bracket, a non-empty run without closing bracket (the url), the
    closing bracket, semicolon, space, rel= and a quoted non-empty run
    without quote (the relation). Gives the two groups and the number of
    characters consumed. *)
Definition match_link (s : string) : option (string * string * nat) :=
  s1 ← strip_prefix "<" s;
  let (url, s2) := span_not ">" s1 in
  if truthy url then
    s3 ← strip_prefix (">; rel=" +:+ str dquote) s2;
    let (rel, s4) := span_not dquote s3 in
    if truthy rel then
      s5 ← strip_prefix (str dquote) s4;
      Some (url, rel, (String.length s - String.length s5)%nat)
    else None
  else None.

(** [re.findall]: the matches from left to right, without overlap;
    [skip] counts the characters of the current match still to pass. *)
Fixpoint findall_from (skip : nat) (s : string) : list (string * string) :=
  match s with
  | EmptyString => []
  | String _ s' =>
      match skip with
      | S n => findall_from n s'
      | O =>
          match match_link s with
          | Some (url, rel, n) => (url, rel) :: findall_from (Nat.pred n) s'
          | None => findall_from O s'
          end
      end
  end.

Definition findall (s : string) : list (string * string) := findall_from O s.

(** ** The module over a transport *)

Section Module.

(** The remote service behind [fetch_url]: a request and the state of
    the service give the response and the next state. *)
Variable Remote : Type.
Variable fetch_url : Request → Remote → GitHubResponse * Remote.

Record World := mkWorld {
  remote : Remote;
  sent : list Request;
  clock : datetime
}.

Definition M (A : Type) : Type := World → Outcome A * World.

Definition ret {A} (a : A) : M A := λ w, (Return a, w).

Definition bind {A B} (m : M A) (k : A → M B) : M B := λ w,
  match m w with
  | (Return a, w') => k a w'
  | (Raise e, w') => (Raise e, w')
  | (OutOfFuel, w') => (OutOfFuel, w')
  end.

Definition raise {A} (e : Error) : M A := λ w, (Raise e, w).

Definition out_of_fuel {A} : M A := λ w, (OutOfFuel, w).

(** [module.fail_json(msg=...)] ends the run. *)
Definition fail_json {A} (m : string) : M A := raise (FailJson m).

Definition utcnow : M datetime := λ w, (Return (clock w), w).

Definition send (rq : Request) : M GitHubResponse := λ w,
  let (r, rem) := fetch_url rq (remote w) in
  (Return r, mkWorld rem (sent w ++ [rq]) (clock w)).

Notation "x <~ c1 ;; c2" := (bind c1 (λ x, c2))
  (at level 100, c1 at next level, right associativity).
Notation "c1 ;;; c2" := (bind c1 (λ _, c2))
  (at level 100, right associativity).

Record GitHubSession := mkGitHubSession { token : string }.

Definition request_headers (session : GitHubSession) : list (string * string) :=
  [ ("Authorization", "token " +:+ token session);
    ("Content-Type", "application/json");
    ("Accept", "application/vnd.github.v3+json") ].

(** [GitHubSession.request] *)
Definition request (session : GitHubSession) (method : Method) (url : string)
    (data : option NewKey) : M GitHubResponse :=
  r <~ send (mkRequest method url data (request_headers session));;
  if bool_decide (200 ≤ status (info r) < 400) then ret r
  else fail_json (" failed to send request " +:+ method_name method
                  +:+ " to " +:+ url +:+ ": " +:+ msg (info r)).

(** [GitHubResponse.json] *)
Definition json (r : GitHubResponse) : M Content :=
  match content r with
  | NoContent => raise ValueError
  | c => ret c
  end.

(** [re.info]: the module [re] has no attribute [info]. *)
Definition re_info : M (gmap string string) :=
  raise (AttributeError "module 're' has no attribute 'info'").

(** [GitHubResponse.links] *)
Definition links (r : GitHubResponse) : M (gmap string string) :=
  if bool_decide (is_Some (headers (info r) !! "link")) then
    re_info <~ re_info;;
    match re_info !! "link" with
    | Some link_header =>
        ret (foldl (λ links '(url, rel), <[rel := url]> links) ∅
                   (findall link_header))
    | None => raise (AttributeError "link")
    end
  else ret ∅.

(** The keys of one page: iterating an array gives its keys; iterating
    an object gives its field names, and the callers' [key['title']]
    fails on them. *)
Definition page_keys (c : Content) : M (list Key) :=
  match c with
  | JArray ks => ret ks
  | JObject _ => raise TypeError
  | NoContent => raise TypeError
  end.

(** [get_all_keys], the generator run to its end; [fuel] bounds the
    number of turns of [while url]. *)
Fixpoint get_all_keys_from (fuel : nat) (session : GitHubSession)
    (url : option string) : M (list Key) :=
  match url with
  | None => ret []
  | Some u =>
      if truthy u then
        match fuel with
        | O => out_of_fuel
        | S fuel' =>
            r <~ request session GET u None;;
            c <~ json r;;
            page <~ page_keys c;;
            l <~ links r;;
            rest <~ get_all_keys_from fuel' session (l !! "next");;
            ret (page ++ rest)%list
        end
      else ret []
  end.

Definition get_all_keys (fuel : nat) (session : GitHubSession) : M (list Key) :=
  get_all_keys_from fuel session (Some (API_BASE +:+ "/user/keys")).

(** The dictionary handed to [exit_json]; the entries [matching_keys] and
    [key] exist on the present path only. *)
Record Result := mkResult {
  changed : bool;
  deleted_keys : list Key;
  matching_keys : option (list Key);
  key : option Content
}.

Definition CHECK_MODE_URL : string := "http://example.com/CHECK_MODE_GITHUB_KEY".

(** [create_key] *)
Definition create_key (session : GitHubSession) (name pubkey : string)
    (check_mode : bool) : M Content :=
  if check_mode then
    now <~ utcnow;;
    ret (JObject {| key_id := 0;
                    key_key := pubkey;
                    key_title := name;
                    key_url := CHECK_MODE_URL;
                    key_created_at := strftime now;
                    key_read_only := false;
                    key_verified := false |})
  else
    r <~ request session POST (API_BASE +:+ "/user/keys")
           (Some (mkNewKey name pubkey));;
    json r.

(** [API_BASE + '/user/keys/{[id]}'.format(key)] *)
Definition key_endpoint (k : Key) : string :=
  API_BASE +:+ "/user/keys/" +:+ pretty (key_id k).

(** The loop of [delete_keys]. *)
Fixpoint delete_each (session : GitHubSession) (to_delete : list Key) : M unit :=
  match to_delete with
  | [] => ret tt
  | k :: rest =>
      request session DELETE (key_endpoint k) None ;;;
      delete_each session rest
  end.

(** [delete_keys] *)
Definition delete_keys (session : GitHubSession) (to_delete : list Key)
    (check_mode : bool) : M unit :=
  if check_mode then ret tt else delete_each session to_delete.

(** [key['title'] == name] over the listing. *)
Definition titled (name : string) (keys : list Key) : list Key :=
  filter (λ k, key_title k = name) keys.

(** [ensure_key_absent] *)
Definition ensure_key_absent (fuel : nat) (session : GitHubSession)
    (name : string) (check_mode : bool) : M Result :=
  keys <~ get_all_keys fuel session;;
  let to_delete := titled name keys in
  delete_keys session to_delete check_mode ;;;
  ret {| changed := negb (bool_decide (to_delete = []));
         deleted_keys := to_delete;
         matching_keys := None;
         key := None |}.

(** [matching_keys and force and matching_keys[0]['key'] != pubkey] *)
Definition must_replace (matching : list Key) (force : bool) (pubkey : string) : bool :=
  match matching with
  | [] => false
  | k0 :: _ => force && negb (bool_decide (key_key k0 = pubkey))
  end.

(** [ensure_key_present] *)
Definition ensure_key_present (fuel : nat) (session : GitHubSession)
    (name pubkey : string) (force check_mode : bool) : M Result :=
  keys <~ get_all_keys fuel session;;
  let matching := titled name keys in
  dm <~ (if must_replace matching force pubkey then
           delete_keys session matching check_mode ;;;
           ret (matching, [])
         else ret ([], matching));;
  let deleted := fst dm in
  let matching := snd dm in
  k <~ match matching with
       | [] => create_key session name pubkey check_mode
       | k0 :: _ => ret (JObject k0)
       end;;
  ret {| changed := negb (bool_decide (deleted = []))
                    || bool_decide (matching = []);
         deleted_keys := deleted;
         matching_keys := Some matching;
         key := Some k |}.

Inductive State := present | absent.

(** [module.params] and [module.check_mode]. *)
Record Params := mkParams {
  param_token : string;
  param_name : string;
  param_pubkey : option string;
  param_state : State;
  param_force : bool;
  param_check_mode : bool
}.

Definition MSG_INVALID : string :=
  Eval cbv in str dquote +:+ "pubkey" +:+ str dquote
              +:+ " parameter has an invalid format".

Definition MSG_REQUIRED : string :=
  Eval cbv in str dquote +:+ "pubkey" +:+ str dquote
              +:+ " is required when state=present".

(** [main], from the parameters on. The two ways through
    [if pubkey: ... elif state == 'present': ...] are written out: with a
    non-empty [pubkey] the key is checked and cut to its first two
    parts whatever the state; without one, [present] fails. *)
Definition main (fuel : nat) (params : Params) : M Result :=
  let name := param_name params in
  let state := param_state params in
  let force := param_force params in
  let check_mode := param_check_mode params in
  let session := mkGitHubSession (param_token params) in
  let without_pubkey : M Result :=
    match state with
    | present => fail_json MSG_REQUIRED
    | absent => ensure_key_absent fuel session name check_mode
    end in
  match param_pubkey params with
  | Some pubkey =>
      if truthy pubkey then
        match normalize_pubkey pubkey with
        | None => fail_json MSG_INVALID
        | Some pubkey =>
            match state with
            | present =>
                ensure_key_present fuel session name pubkey force check_mode
            | absent => ensure_key_absent fuel session name check_mode
            end
        end
      else without_pubkey
  | None => without_pubkey
  end.

End Module.

Arguments mkWorld {Remote} _ _ _.
Arguments remote {Remote} _.
Arguments sent {Remote} _.
Arguments clock {Remote} _.
Arguments ret {Remote A} _ _.
Arguments bind {Remote A B} _ _ _.
Arguments raise {Remote A} _ _.
Arguments out_of_fuel {Remote A} _.
Arguments fail_json {Remote A} _ _.
Arguments utcnow {Remote} _.
Arguments send {Remote} fetch_url _ _.
Arguments request {Remote} fetch_url _ _ _ _ _.
Arguments json {Remote} _ _.
Arguments re_info {Remote} _.
Arguments links {Remote} _ _.
Arguments page_keys {Remote} _ _.
Arguments get_all_keys_from {Remote} fetch_url _ _ _ _.
Arguments get_all_keys {Remote} fetch_url _ _ _.
Arguments create_key {Remote} fetch_url _ _ _ _ _.
Arguments delete_each {Remote} fetch_url _ _ _.
Arguments delete_keys {Remote} fetch_url _ _ _ _.
Arguments ensure_key_absent {Remote} fetch_url _ _ _ _ _.
Arguments ensure_key_present {Remote} fetch_url _ _ _ _ _ _ _.
Arguments main {Remote} fetch_url _ _ _.

(** ** A reference remote service *)

(** Modelled from the spec: the remote API of section 6, which is not
    part of the repository. [GET /user/keys] lists the keys in pages of
    [per_page], linked through the Link header; [POST /user/keys]
    stores a new key under a fresh identifier; [DELETE /user/keys/id]
    removes the key with that identifier; anything else is not found. *)
Module GitHub.

Record Store := mkStore {
  keys : list Key;
  per_page : nat;
  stamp : string
}.

Definition keys_url : string := API_BASE +:+ "/user/keys".

Definition page_url (n : nat) : string :=
  if (n =? 1)%nat then keys_url else keys_url +:+ "?page=" +:+ pretty n.

Definition page (st : Store) (n : nat) : list Key :=
  take (per_page st) (drop ((n - 1) * per_page st) (keys st)).

Definition has_next (st : Store) (n : nat) : bool :=
  (n * per_page st <? length (keys st))%nat.

Definition link_entry (url rel : string) : string :=
  "<" +:+ url +:+ ">; rel=" +:+ str dquote +:+ rel +:+ str dquote.

Definition link_headers (st : Store) (n : nat) : gmap string string :=
  if has_next st n
  then {[ "link" := link_entry (page_url (S n)) "next" ]}
  else ∅.

Definition fresh_id (ks : list Key) : Z :=
  1 + foldr Z.max 0 (key_id <$> ks).

Definition not_found : GitHubResponse :=
  mkGitHubResponse NoContent (mkInfo 404 "HTTP Error 404: Not Found" ∅).

Definition list_page (st : Store) (url : string) : option nat :=
  head (filter (λ n, page_url n = url) (seq 1 (S (length (keys st))))).

Definition fetch_url (rq : Request) (st : Store) : GitHubResponse * Store :=
  match req_method rq with
  | GET =>
      match list_page st (req_url rq) with
      | Some n =>
          (mkGitHubResponse (JArray (page st n))
             (mkInfo 200 "OK (unknown bytes)" (link_headers st n)), st)
      | None => (not_found, st)
      end
  | POST =>
      match req_data rq with
      | Some nk =>
          if bool_decide (req_url rq = keys_url) then
            let k := {| key_id := fresh_id (keys st);
                        key_key := new_key nk;
                        key_title := new_title nk;
                        key_url := keys_url +:+ "/" +:+ pretty (fresh_id (keys st));
                        key_created_at := stamp st;
                        key_read_only := false;
                        key_verified := false |} in
            (mkGitHubResponse (JObject k) (mkInfo 201 "OK (unknown bytes)" ∅),
             mkStore (keys st ++ [k]) (per_page st) (stamp st))
          else (not_found, st)
      | None => (not_found, st)
      end
  | DELETE =>
      if bool_decide (Exists (λ k, key_endpoint k = req_url rq) (keys st)) then
        (mkGitHubResponse NoContent (mkInfo 204 "OK (0 bytes)" ∅),
         mkStore (filter (λ k, key_endpoint k ≠ req_url rq) (keys st))
                 (per_page st) (stamp st))
      else (not_found, st)
  end.

(** Identifiers name one key each. *)
Definition well_formed (st : Store) : Prop := NoDup (key_id <$> keys st).

(** The whole listing fits the first page. *)
Definition single_page (st : Store) : Prop :=
  (length (keys st) ≤ per_page st)%nat.

(** The record the service makes for a new key. *)
Definition created (st : Store) (name pubkey : string) : Key :=
  {| key_id := fresh_id (keys st);
     key_key := pubkey;
     key_title := name;
     key_url := keys_url +:+ "/" +:+ pretty (fresh_id (keys st));
     key_created_at := stamp st;
     key_read_only := false;
     key_verified := false |}.

Definition with_keys (st : Store) (ks : list Key) : Store :=
  mkStore ks (per_page st) (stamp st).

(** The store without the keys titled [name]. *)
Definition without (name : string) (st : Store) : Store :=
  with_keys st (filter (λ k, key_title k ≠ name) (keys st)).

End GitHub.

(** ** Notions used by the statements *)

(** The number of occurrences of [c] in [s]. *)
Fixpoint occurs (c : ascii) (s : string) : nat :=
  match s with
  | EmptyString => O
  | String a s' => ((if Ascii.eqb a c then 1 else 0) + occurs c s')%nat
  end.

(** Splitting on whitespace in the sense of Python's [s.split()]: the
    maximal runs of characters that are not whitespace. *)
Definition is_whitespace (c : ascii) : bool :=
  let n := nat_of_ascii c in
  ((n =? 32) || ((9 <=? n) && (n <=? 13)))%nat.

Definition cons_token (t : string) (ts : list string) : list string :=
  if truthy t then t :: ts else ts.

(** The token that starts at the head of [s] (empty when [s] starts with
    whitespace) and the tokens after it. *)
Fixpoint scan_tokens (s : string) : string * list string :=
  match s with
  | EmptyString => (EmptyString, [])
  | String c s' =>
      let (t, ts) := scan_tokens s' in
      if is_whitespace c then (EmptyString, cons_token t ts)
      else (String c t, ts)
  end.

Definition split_whitespace (s : string) : list string :=
  let (t, ts) := scan_tokens s in cons_token t ts.

(** Key normalization in the words of section 4.4 of the specification:
    split on whitespace, fail on fewer than two tokens, keep the first
    two. *)
Definition normalize_pubkey_spec (pubkey : string) : option string :=
  let tokens := split_whitespace pubkey in
  if (length tokens <? 2)%nat then None
  else Some (join " " (take 2 tokens)).

(** The record [create_key] makes up in check mode. *)
Definition synthetic_key (name pubkey : string) (now : datetime) : Key :=
  {| key_id := 0;
     key_key := pubkey;
     key_title := name;
     key_url := CHECK_MODE_URL;
     key_created_at := strftime now;
     key_read_only := false;
     key_verified := false |}.

Definition is_digit (c : ascii) : bool :=
  let n := nat_of_ascii c in ((48 <=? n) && (n <=? 57))%nat.

(** The shape YYYY-MM-DDTHH:MM:SSZ. *)
Definition timestamp_shape (s : string) : bool :=
  match list_ascii_of_string s with
  | [y1; y2; y3; y4; d1; m1; m2; d2; a1; a2; t; h1; h2; c1; n1; n2; c2; s1; s2; z] =>
      forallb is_digit [y1; y2; y3; y4; m1; m2; a1; a2; h1; h2; n1; n2; s1; s2]
      && bool_decide ([d1; d2; t; c1; c2; z] = ["-"; "-"; "T"; ":"; ":"; "Z"]%char)
  | _ => false
  end.

(** The value of a run of decimal digits. *)
Definition digits_value (s : string) : N :=
  fold_left (λ acc c, 10 * acc + (N_of_ascii c - 48))%N (list_ascii_of_string s) 0%N.

(** The outcome of a run, mapped. *)
Definition outcome_map {A B} (f : A → B) (o : Outcome A) : Outcome B :=
  match o with
  | Return a => Return (f a)
  | Raise e => Raise e
  | OutOfFuel => OutOfFuel
  end.

Definition is_get (rq : Request) : Prop := req_method rq = GET.

(** The two failures of the validation in [main]. *)
Definition validation_error {A} (o : Outcome A) : Prop :=
  o = Raise (FailJson MSG_INVALID) ∨ o = Raise (FailJson MSG_REQUIRED).

(** The requests of the module. *)
Definition list_request (session : GitHubSession) : Request :=
  mkRequest GET (API_BASE +:+ "/user/keys") None (request_headers session).

Definition delete_request (session : GitHubSession) (k : Key) : Request :=
  mkRequest DELETE (key_endpoint k) None (request_headers session).

Definition create_request (session : GitHubSession) (name pubkey : string) : Request :=
  mkRequest POST (API_BASE +:+ "/user/keys") (Some (mkNewKey name pubkey))
            (request_headers session).

(** The error of the attribute lookup in [links]. *)
Definition NO_RE_INFO : Error :=
  AttributeError "module 're' has no attribute 'info'".

(** The requests a run adds to the log all satisfy [P]. *)
Definition extends_by {Remote} (P : Request → Prop) (w w' : World Remote) : Prop :=
  ∃ l, sent w' = (sent w ++ l)%list ∧ Forall P l.

Definition sends_only {Remote A} (P : Request → Prop) (m : M Remote A) : Prop :=
  ∀ w, extends_by P w (m w).2.

Definition passes_validation {Remote A} (m : M Remote A) : Prop :=
  ∀ w, ¬ validation_error (m w).1.

(** What [ensure_key_absent] reports for a listing. *)
Definition absent_result (name : string) (listing : list Key) : Result :=
  {| changed := negb (bool_decide (titled name listing = []));
     deleted_keys := titled name listing;
     matching_keys := None;
     key := None |}.

(** What [ensure_key_present] reports in check mode for a listing. *)
Definition present_check_result (name pubkey : string) (force : bool)
    (now : datetime) (listing : list Key) : Result :=
  let matching := titled name listing in
  let made := Some (JObject (synthetic_key name pubkey now)) in
  if must_replace matching force pubkey then
    {| changed := true; deleted_keys := matching;
       matching_keys := Some []; key := made |}
  else
    match matching with
    | [] => {| changed := true; deleted_keys := [];
               matching_keys := Some []; key := made |}
    | k0 :: _ => {| changed := false; deleted_keys := [];
                    matching_keys := Some matching; key := Some (JObject k0) |}
    end.

(** The answer of the service to [rq] in the world [w], the world after
    [rq] went out, and the world after a list of requests went out one
    after the other. *)
Definition answer {Remote} (fetch_url : Request → Remote → GitHubResponse * Remote)
    (w : World Remote) (rq : Request) : GitHubResponse :=
  (fetch_url rq (remote w)).1.

Definition deliver {Remote} (fetch_url : Request → Remote → GitHubResponse * Remote)
    (w : World Remote) (rq : Request) : World Remote :=
  mkWorld (fetch_url rq (remote w)).2 (sent w ++ [rq]) (clock w).

Definition deliver_all {Remote}
    (fetch_url : Request → Remote → GitHubResponse * Remote)
    (w : World Remote) (rqs : list Request) : World Remote :=
  foldl (deliver fetch_url) w rqs.

(** The test of [GitHubSession.request] on the status. *)
Definition accepted (r : GitHubResponse) : Prop := 200 ≤ status (info r) < 400.

(** The keys in the answer to the GET of the listing; none when the
    answer is no array. *)
Definition first_page {Remote}
    (fetch_url : Request → Remote → GitHubResponse * Remote)
    (session : GitHubSession) (w : World Remote) : list Key :=
  match content (answer fetch_url w (list_request session)) with
  | JArray ks => ks
  | _ => []
  end.

(** ** Sample data *)

Definition sample_stamp : string := "2016-07-04T09:05:59Z".

Definition sample_key (id : Z) (title material : string) : Key :=
  mkKey id material title (GitHub.keys_url +:+ "/" +:+ pretty id)
        sample_stamp false false.

Definition sample_world (ks : list Key) (per_page : nat) : World GitHub.Store :=
  mkWorld (GitHub.mkStore ks per_page sample_stamp) []
          (mkDatetime 2016 7 4 9 5 59).

Definition sample_session : GitHubSession := mkGitHubSession "0123abcd".

Definition deploy_key : Key := sample_key 1 "deploy-key" "ssh-rsa AAAA".
Definition backup_key : Key := sample_key 2 "backup" "ssh-ed25519 CCCC".
Definition deploy_twin : Key := sample_key 3 "deploy-key" "ssh-rsa DDDD".

Definition sample_params (pubkey : option string) (state : State) : Params :=
  mkParams "0123abcd" "deploy-key" pubkey state true false.

(** A transport that reaches no service: [fetch_url] reports every
    request with status -1 and the reason. *)
Definition offline (rq : Request) (st : unit) : GitHubResponse * unit :=
  (mkGitHubResponse NoContent
     (mkInfo (-1) "Request failed: <urlopen error timed out>" ∅), tt).

(** The message of [GitHubSession.request] on a refused request. *)
Definition request_failure (method : Method) (url message : string) : Error :=
  FailJson (" failed to send request " +:+ method_name method
            +:+ " to " +:+ url +:+ ": " +:+ message).

(** * Properties *)

(** ** Splitting and joining *)

Section Split.

Variable sep : ascii.

Lemma split_cons (s : string) : ∃ p ps, split sep s = p :: ps.
Proof.
  destruct s as [|c s]; simpl; [by eauto|].
  destruct (Ascii.eqb c sep); [by eauto|].
  destruct (split sep s); by eauto.
Qed.

Lemma length_split (s : string) : length (split sep s) = S (occurs sep s).
Proof.
  induction s as [|c s IH]; simpl; [done|].
  destruct (Ascii.eqb c sep); simpl; [by rewrite IH|].
  destruct (split_cons s) as (p & ps & E). rewrite E in IH |- *. done.
Qed.

Lemma split_without (s : string) : occurs sep s = O → split sep s = [s].
Proof.
  induction s as [|c s IH]; simpl; [done|].
  destruct (Ascii.eqb c sep); simpl; [done|].
  intros H. by rewrite IH.
Qed.

Lemma split_app (a b : string) :
  occurs sep a = O → split sep (a +:+ String sep b) = a :: split sep b.
Proof.
  induction a as [|c a IH]; simpl.
  - intros _. by rewrite Ascii.eqb_refl.
  - destruct (Ascii.eqb c sep); simpl; [done|].
    intros H. by rewrite IH.
Qed.

End Split.

Lemma normalize_pubkey_fails (raw : string) :
  normalize_pubkey raw = None ↔ occurs space raw = O.
Proof.
  unfold normalize_pubkey. rewrite length_split.
  destruct (occurs space raw) as [|n]; simpl; [done|].
  split; [|done]. intros H. discriminate H.
Qed.

Lemma normalize_pubkey_two (proto data : string) :
  occurs space proto = O → occurs space data = O →
  normalize_pubkey (proto +:+ " " +:+ data) = Some (proto +:+ " " +:+ data).
Proof.
  intros Hp Hd. unfold normalize_pubkey.
  change (proto +:+ " " +:+ data) with (proto +:+ String space data).
  rewrite (split_app _ _ _ Hp), (split_without _ _ Hd). done.
Qed.

Lemma normalize_pubkey_comment (proto data comment : string) :
  occurs space proto = O → occurs space data = O →
  normalize_pubkey (proto +:+ " " +:+ data +:+ " " +:+ comment)
  = Some (proto +:+ " " +:+ data).
Proof.
  intros Hp Hd. unfold normalize_pubkey.
  change (proto +:+ " " +:+ data +:+ " " +:+ comment)
    with (proto +:+ String space (data +:+ String space comment)).
  rewrite (split_app _ _ _ Hp), (split_app _ _ _ Hd). done.
Qed.

(** ** The monad *)

Section Monad.

Context {Remote : Type}.
Implicit Types w : World Remote.

Lemma bind_return {A B} (m : M Remote A) (k : A → M Remote B) w a w1 :
  m w = (Return a, w1) → bind m k w = k a w1.
Proof. intros H. unfold bind. by rewrite H. Qed.

Lemma bind_raise {A B} (m : M Remote A) (k : A → M Remote B) w e w1 :
  m w = (Raise e, w1) → bind m k w = (Raise e, w1).
Proof. intros H. unfold bind. by rewrite H. Qed.

Lemma bind_inv {A B} (m : M Remote A) (k : A → M Remote B) w b w2 :
  bind m k w = (Return b, w2) →
  ∃ a w1, m w = (Return a, w1) ∧ k a w1 = (Return b, w2).
Proof.
  unfold bind. destruct (m w) as [[a|e|] w1]; intros H; [by eauto|done..].
Qed.

Lemma extends_by_refl (P : Request → Prop) w : extends_by P w w.
Proof. exists []. by rewrite app_nil_r. Qed.

Lemma extends_by_trans (P : Request → Prop) w1 w2 w3 :
  extends_by P w1 w2 → extends_by P w2 w3 → extends_by P w1 w3.
Proof.
  intros (l1 & E1 & F1) (l2 & E2 & F2). exists (l1 ++ l2)%list. split.
  - by rewrite E2, E1, <-app_assoc.
  - by apply Forall_app.
Qed.

Lemma sends_only_ret {A} P (a : A) : sends_only (Remote:=Remote) P (ret a).
Proof. intros w. apply extends_by_refl. Qed.

Lemma sends_only_raise {A} P e : sends_only (Remote:=Remote) (A:=A) P (raise e).
Proof. intros w. apply extends_by_refl. Qed.

Lemma sends_only_bind {A B} P (m : M Remote A) (k : A → M Remote B) :
  sends_only P m → (∀ a, sends_only P (k a)) → sends_only P (bind m k).
Proof.
  intros Hm Hk w. specialize (Hm w). unfold bind.
  destruct (m w) as [[a|e|] w1]; simpl in *; [|done..].
  eapply extends_by_trans; [done|]. apply Hk.
Qed.

Lemma passes_validation_ret {A} (a : A) : passes_validation (Remote:=Remote) (ret a).
Proof. intros w [H|H]; discriminate H. Qed.

Lemma passes_validation_bind {A B} (m : M Remote A) (k : A → M Remote B) :
  passes_validation m → (∀ a, passes_validation (k a)) →
  passes_validation (bind m k).
Proof.
  intros Hm Hk w. specialize (Hm w). unfold bind.
  destruct (m w) as [[a|e|] w1]; simpl in *.
  - apply Hk.
  - intros [H|H]; apply Hm; [left|right]; by inversion H.
  - intros [H|H]; discriminate H.
Qed.

End Monad.

(** ** Requests and the listing, over any transport *)

Section Listing.

Context {Remote : Type} (fetch_url : Request → Remote → GitHubResponse * Remote).
Implicit Types w : World Remote.

Lemma request_unfold session m u d w :
  request fetch_url session m u d w =
  let rq := mkRequest m u d (request_headers session) in
  let r := (fetch_url rq (remote w)).1 in
  let w' := mkWorld (fetch_url rq (remote w)).2 (sent w ++ [rq]) (clock w) in
  if bool_decide (200 ≤ status (info r) < 400) then (Return r, w')
  else (Raise (FailJson (" failed to send request " +:+ method_name m
                         +:+ " to " +:+ u +:+ ": " +:+ msg (info r))), w').
Proof.
  unfold request, bind, send.
  destruct (fetch_url _ (remote w)) as [r rem]; simpl.
  by case_bool_decide.
Qed.

Lemma request_sends (P : Request → Prop) session m u d :
  P (mkRequest m u d (request_headers session)) →
  sends_only P (request fetch_url session m u d).
Proof.
  intros HP w. rewrite request_unfold; simpl.
  exists [mkRequest m u d (request_headers session)].
  case_bool_decide; simpl; split; auto.
Qed.

Lemma request_passes_validation session m u d :
  passes_validation (request fetch_url session m u d).
Proof.
  intros w. rewrite request_unfold; simpl.
  case_bool_decide; simpl; intros [E|E]; discriminate E.
Qed.

Lemma links_unfold (r : GitHubResponse) w :
  links r w =
  if bool_decide (is_Some (headers (info r) !! "link"))
  then (Raise NO_RE_INFO, w) else (Return ∅, w).
Proof. unfold links. by case_bool_decide. Qed.

Lemma json_unfold (r : GitHubResponse) w ks :
  content r = JArray ks → bind (json r) page_keys w = (Return ks, w).
Proof. intros H. unfold bind, json. by rewrite H. Qed.

(** One turn of the loop on a page without Link header ends the listing. *)
Lemma get_all_keys_from_last fuel session u w ks :
  let rq := mkRequest GET u None (request_headers session) in
  truthy u = true →
  200 ≤ status (info (fetch_url rq (remote w)).1) < 400 →
  content (fetch_url rq (remote w)).1 = JArray ks →
  headers (info (fetch_url rq (remote w)).1) !! "link" = None →
  get_all_keys_from fetch_url (S fuel) session (Some u) w =
  (Return ks, mkWorld (fetch_url rq (remote w)).2 (sent w ++ [rq]) (clock w)).
Proof.
  intros rq Hu Hs Hc Hl. simpl. rewrite Hu.
  unfold bind at 1. rewrite request_unfold. fold rq. simpl.
  rewrite bool_decide_eq_true_2 by done.
  unfold bind at 1. unfold json. rewrite Hc. simpl.
  unfold bind at 1. simpl.
  unfold bind at 1. rewrite links_unfold, Hl.
  rewrite bool_decide_eq_false_2 by (by intros [? ?]).
  unfold bind. rewrite lookup_empty. destruct fuel; simpl; by rewrite app_nil_r.
Qed.

(** One turn of the loop on a page with a Link header ends the run. *)
Lemma get_all_keys_from_link fuel session u w ks :
  let rq := mkRequest GET u None (request_headers session) in
  truthy u = true →
  200 ≤ status (info (fetch_url rq (remote w)).1) < 400 →
  content (fetch_url rq (remote w)).1 = JArray ks →
  is_Some (headers (info (fetch_url rq (remote w)).1) !! "link") →
  get_all_keys_from fetch_url (S fuel) session (Some u) w =
  (Raise NO_RE_INFO,
   mkWorld (fetch_url rq (remote w)).2 (sent w ++ [rq]) (clock w)).
Proof.
  intros rq Hu Hs Hc Hl. simpl. rewrite Hu.
  unfold bind at 1. rewrite request_unfold. fold rq. simpl.
  rewrite bool_decide_eq_true_2 by done.
  unfold bind at 1. unfold json. rewrite Hc. simpl.
  unfold bind at 1. simpl.
  unfold bind at 1. rewrite links_unfold.
  by rewrite bool_decide_eq_true_2.
Qed.

Lemma get_all_keys_from_gets fuel session url :
  sends_only is_get (get_all_keys_from fetch_url fuel session url).
Proof.
  revert url. induction fuel as [|fuel IH]; intros [u|]; simpl;
    try apply sends_only_ret.
  - destruct (truthy u); [|apply sends_only_ret].
    intros w. apply extends_by_refl.
  - destruct (truthy u); [|apply sends_only_ret].
    apply sends_only_bind; [by apply request_sends|]. intros r.
    apply sends_only_bind.
    { unfold json. destruct (content r);
        auto using sends_only_ret, sends_only_raise. }
    intros c. apply sends_only_bind.
    { destruct c; simpl; auto using sends_only_ret, sends_only_raise. }
    intros page. apply sends_only_bind.
    { intros w. rewrite links_unfold. case_bool_decide; apply extends_by_refl. }
    intros l. apply sends_only_bind; [apply IH|]. intros rest.
    apply sends_only_ret.
Qed.

Lemma raise_passes_validation {A} e :
  e ≠ FailJson MSG_INVALID → e ≠ FailJson MSG_REQUIRED →
  passes_validation (Remote:=Remote) (A:=A) (raise e).
Proof. intros H1 H2 w [H|H]; simpl in H; congruence. Qed.

Lemma get_all_keys_from_passes_validation fuel session url :
  passes_validation (get_all_keys_from fetch_url fuel session url).
Proof.
  revert url. induction fuel as [|fuel IH]; intros [u|]; simpl;
    try apply passes_validation_ret.
  - destruct (truthy u); [|apply passes_validation_ret].
    intros w [H|H]; discriminate H.
  - destruct (truthy u); [|apply passes_validation_ret].
    apply passes_validation_bind; [apply request_passes_validation|]. intros r.
    apply passes_validation_bind.
    { unfold json. destruct (content r);
        auto using passes_validation_ret, raise_passes_validation. }
    intros c. apply passes_validation_bind.
    { destruct c; simpl;
        auto using passes_validation_ret, raise_passes_validation. }
    intros page. apply passes_validation_bind.
    { intros w. rewrite links_unfold.
      case_bool_decide; simpl; intros [E|E]; discriminate E. }
    intros l. apply passes_validation_bind; [apply IH|]. intros rest.
    apply passes_validation_ret.
Qed.

Lemma delete_each_passes_validation session ks :
  passes_validation (delete_each fetch_url session ks).
Proof.
  induction ks as [|k ks IH]; simpl; [apply passes_validation_ret|].
  apply passes_validation_bind; [apply request_passes_validation|]. done.
Qed.

Lemma ensure_key_absent_passes_validation fuel session name check_mode :
  passes_validation (ensure_key_absent fetch_url fuel session name check_mode).
Proof.
  unfold ensure_key_absent, get_all_keys.
  apply passes_validation_bind;
    [apply get_all_keys_from_passes_validation|]. intros listing.
  apply passes_validation_bind; [|intros; apply passes_validation_ret].
  destruct check_mode; simpl;
    [apply passes_validation_ret | apply delete_each_passes_validation].
Qed.

(** The clock does not move during a listing. *)
Lemma get_all_keys_from_clock fuel session url w :
  clock (get_all_keys_from fetch_url fuel session url w).2 = clock w.
Proof.
  revert url w. induction fuel as [|fuel IH]; intros [u|] w; simpl; try done.
  - by destruct (truthy u).
  - destruct (truthy u); [|done].
    unfold bind at 1. rewrite request_unfold; simpl.
    case_bool_decide; [|done].
    unfold bind at 1. unfold json.
    destruct (content _) as [ks|k|]; simpl; try done.
    unfold bind at 1. simpl. unfold bind at 1. rewrite links_unfold.
    case_bool_decide; [done|]. unfold bind.
    specialize (IH ((∅ : gmap string string) !! "next")).
    match goal with |- context [get_all_keys_from _ _ _ _ ?w1] =>
      specialize (IH w1); destruct (get_all_keys_from _ _ _ _ w1) as [[a|e|] w2]
    end; simpl in *; done.
Qed.

(** One turn of [while url]: the outcome is read off the first response,
    whatever fuel is left. *)
Lemma get_all_keys_turn fuel session w :
  let rq := list_request session in
  let r := (fetch_url rq (remote w)).1 in
  let w' := mkWorld (fetch_url rq (remote w)).2 (sent w ++ [rq]) (clock w) in
  get_all_keys fetch_url (S fuel) session w
  = if bool_decide (200 ≤ status (info r) < 400) then
      match content r with
      | JArray ks =>
          if bool_decide (is_Some (headers (info r) !! "link"))
          then (Raise NO_RE_INFO, w') else (Return ks, w')
      | JObject _ => (Raise TypeError, w')
      | NoContent => (Raise ValueError, w')
      end
    else (Raise (request_failure GET (req_url rq) (msg (info r))), w').
Proof.
  intros rq r w'. unfold get_all_keys. simpl get_all_keys_from.
  unfold bind at 1. rewrite request_unfold. cbv zeta.
  fold (list_request session). fold rq. fold r. fold w'.
  case_bool_decide; [|done].
  unfold bind at 1. unfold json.
  destruct (content r) as [ks|k|]; simpl; try done.
  unfold bind at 1. simpl. unfold bind at 1. rewrite links_unfold.
  case_bool_decide; [done|]. unfold bind. rewrite lookup_empty.
  destruct fuel; simpl; by rewrite app_nil_r.
Qed.

End Listing.

(** ** Validation in [main] and check mode, over any transport *)

Lemma is_digit_digit (n : N) : is_digit (digit n) = true.
Proof.
  unfold digit. pose proof (N.mod_upper_bound n 10 ltac:(done)) as Hm.
  set (m := (n mod 10)%N) in *.
  assert (m = 0 ∨ m = 1 ∨ m = 2 ∨ m = 3 ∨ m = 4 ∨ m = 5 ∨ m = 6 ∨ m = 7
          ∨ m = 8 ∨ m = 9)%N as Hc by lia.
  repeat (destruct Hc as [->|Hc]; [reflexivity|]). by rewrite Hc.
Qed.

Lemma strftime_shape (now : datetime) : timestamp_shape (strftime now) = true.
Proof.
  unfold strftime, fmt4, fmt2, timestamp_shape. simpl.
  by rewrite !is_digit_digit.
Qed.

Lemma digit_value (n : N) : (N_of_ascii (digit n) - 48 = n mod 10)%N.
Proof.
  unfold digit. pose proof (N.mod_upper_bound n 10 ltac:(done)) as Hm.
  set (m := (n mod 10)%N) in *. clearbody m.
  rewrite N_ascii_embedding by lia. lia.
Qed.

(** The two-digit and four-digit fields read back as the numbers printed. *)
Lemma fmt2_value (n : N) : (n < 100)%N → digits_value (fmt2 n) = n.
Proof.
  intros Hn. unfold digits_value, fmt2. cbn [list_ascii_of_string fold_left].
  rewrite !digit_value.
  pose proof (N.Div0.div_mod n 10). pose proof (N.mod_upper_bound n 10 ltac:(done)).
  assert (n / 10 < 10)%N by (apply N.Div0.div_lt_upper_bound; lia).
  rewrite (N.mod_small (n / 10) 10) by done. lia.
Qed.

Lemma fmt4_value (n : N) : (n < 10000)%N → digits_value (fmt4 n) = n.
Proof.
  intros Hn. unfold digits_value, fmt4, fmt2.
  cbn [list_ascii_of_string fold_left]. rewrite !digit_value.
  assert (n / 1000 < 10)%N by (apply N.Div0.div_lt_upper_bound; lia).
  rewrite (N.mod_small (n / 1000) 10) by done.
  pose proof (N.Div0.div_mod n 10). pose proof (N.mod_upper_bound n 10 ltac:(done)).
  pose proof (N.Div0.div_mod (n / 10) 10).
  pose proof (N.mod_upper_bound (n / 10) 10 ltac:(done)).
  pose proof (N.Div0.div_mod (n / 100) 10).
  pose proof (N.mod_upper_bound (n / 100) 10 ltac:(done)).
  replace (n / 100)%N with (n / 10 / 10)%N in * by (by rewrite N.Div0.div_div).
  replace (n / 1000)%N with (n / 10 / 10 / 10)%N in * by (by rewrite !N.Div0.div_div).
  lia.
Qed.

Lemma truthy_nonempty (s : string) : s ≠ EmptyString → truthy s = true.
Proof. by destruct s. Qed.

Section Main.

Context {Remote : Type} (fetch_url : Request → Remote → GitHubResponse * Remote).
Implicit Types w : World Remote.

(** C4. In check mode no POST and no DELETE is sent: [create_key] returns
    the made-up record (id 0, the requested title and key, the placeholder
    URL, not read-only, not verified, the clock printed as
    YYYY-MM-DDTHH:MM:SSZ) and leaves the world as it is, [delete_keys]
    does nothing, and [ensure_key_present] and [ensure_key_absent] are the
    listing followed by a computation of the report, the listing sending
    GET requests only. *)
Theorem check_mode_sends_nothing fuel session name pubkey force ks w :
  let listed := get_all_keys fetch_url fuel session w in
  create_key fetch_url session name pubkey true w
    = (Return (JObject (mkKey 0 pubkey name CHECK_MODE_URL
                              (strftime (clock w)) false false)), w)
  ∧ timestamp_shape (strftime (clock w)) = true
  ∧ delete_keys fetch_url session ks true w = (Return tt, w)
  ∧ ensure_key_present fetch_url fuel session name pubkey force true w
    = (outcome_map (present_check_result name pubkey force (clock w)) listed.1,
       listed.2)
  ∧ ensure_key_absent fetch_url fuel session name true w
    = (outcome_map (absent_result name) listed.1, listed.2)
  ∧ extends_by is_get w listed.2.
Proof.
  intros listed. subst listed. repeat split.
  - apply strftime_shape.
  - unfold ensure_key_present.
    pose proof (get_all_keys_from_clock fetch_url fuel session
                  (Some (API_BASE +:+ "/user/keys")) w) as Hc.
    fold (get_all_keys fetch_url fuel session) in Hc.
    unfold bind at 1.
    destruct (get_all_keys fetch_url fuel session w) as [[listing|e|] w1];
      simpl in *; try done.
    unfold present_check_result, synthetic_key. rewrite <-Hc.
    destruct (must_replace (titled name listing) force pubkey).
    + unfold bind, ret, utcnow; simpl. by rewrite orb_true_r.
    + by destruct (titled name listing).
  - unfold ensure_key_absent. unfold bind at 1.
    by destruct (get_all_keys fetch_url fuel session w) as [[listing|e|] w1].
  - apply (get_all_keys_from_gets fetch_url).
Qed.

(** C5. Validation comes before any request: a non-empty [pubkey]
    without a space, such as a single token, fails with the format error
    whatever the state; [state=present] without [pubkey] fails with the
    missing-key error; in both cases the world is untouched. With
    [state=absent] and no [pubkey] the run goes on to [ensure_key_absent]
    and ends in no validation error. *)
Theorem validation_before_requests fuel tok name state force check_mode token w :
  token ≠ EmptyString → occurs space token = O →
  main fetch_url fuel (mkParams tok name (Some token) state force check_mode) w
    = (Raise (FailJson MSG_INVALID), w)
  ∧ main fetch_url fuel (mkParams tok name None present force check_mode) w
    = (Raise (FailJson MSG_REQUIRED), w)
  ∧ main fetch_url fuel (mkParams tok name None absent force check_mode) w
    = ensure_key_absent fetch_url fuel (mkGitHubSession tok) name check_mode w
  ∧ ¬ validation_error
        (main fetch_url fuel (mkParams tok name None absent force check_mode) w).1.
Proof.
  intros Hne Hsp. repeat split.
  - unfold main; simpl. rewrite truthy_nonempty by done.
    by rewrite (proj2 (normalize_pubkey_fails token) Hsp).
  - apply ensure_key_absent_passes_validation.
Qed.

(** C8, as amended. With [state=absent] a missing or empty [pubkey] is
    not an error, but a non-empty one is still checked: without a space it
    fails with the format error before any request; otherwise it is
    ignored and the run is that of [ensure_key_absent]. *)
Theorem absent_still_checks_pubkey fuel tok name pubkey force check_mode w :
  main fetch_url fuel (mkParams tok name pubkey absent force check_mode) w
  = match pubkey with
    | Some raw =>
        if truthy raw && (occurs space raw =? 0)%nat
        then (Raise (FailJson MSG_INVALID), w)
        else ensure_key_absent fetch_url fuel (mkGitHubSession tok) name
               check_mode w
    | None => ensure_key_absent fetch_url fuel (mkGitHubSession tok) name
                check_mode w
    end.
Proof.
  unfold main; simpl. destruct pubkey as [raw|]; [|done].
  destruct (truthy raw); [|done]. simpl.
  destruct (normalize_pubkey raw) as [pk|] eqn:E.
  - destruct (occurs space raw) eqn:Ho; [|done].
    apply normalize_pubkey_fails in Ho. congruence.
  - apply normalize_pubkey_fails in E. by rewrite E.
Qed.

(** C10. An empty [pubkey] with [state=present] fails with the
    missing-key error, not the format error, before any request; for
    either state the empty string is treated as no [pubkey] at all. *)
Theorem empty_pubkey_is_missing fuel tok name state force check_mode w :
  main fetch_url fuel
       (mkParams tok name (Some EmptyString) present force check_mode) w
    = (Raise (FailJson MSG_REQUIRED), w)
  ∧ MSG_REQUIRED ≠ MSG_INVALID
  ∧ main fetch_url fuel
         (mkParams tok name (Some EmptyString) state force check_mode) w
    = main fetch_url fuel (mkParams tok name None state force check_mode) w.
Proof. repeat split. done. Qed.

(** C9, as amended. The [matching_keys] of [ensure_key_present] is
    empty when the matches were deleted or there were none, and is
    otherwise the whole list of listed keys with the title, however many
    they are; the resulting key is then its first element. It has at most
    one element whenever at most one listed key has the title. *)
Theorem matching_keys_are_all_matches fuel session name pubkey force check_mode
    w r w' :
  ensure_key_present fetch_url fuel session name pubkey force check_mode w
    = (Return r, w') →
  ∃ listing w1,
    get_all_keys fetch_url fuel session w = (Return listing, w1)
    ∧ matching_keys r
      = Some (if must_replace (titled name listing) force pubkey then []
              else titled name listing)
    ∧ (∀ k0 rest, matching_keys r = Some (k0 :: rest) →
         key r = Some (JObject k0) ∧ changed r = false)
    ∧ ((length (titled name listing) ≤ 1)%nat →
       ∃ ms, matching_keys r = Some ms ∧ (length ms ≤ 1)%nat).
Proof.
  unfold ensure_key_present. intros H.
  apply bind_inv in H as (listing & w1 & Hl & H).
  exists listing, w1. split; [done|].
  apply bind_inv in H as ([deleted matching] & w2 & Hd & H).
  apply bind_inv in H as (k & w3 & Hk & H). simpl in *.
  assert (matching = if must_replace (titled name listing) force pubkey
                     then [] else titled name listing) as ->.
  { destruct (must_replace _ _ _).
    - apply bind_inv in Hd as (? & ? & _ & Hd). by inversion Hd.
    - by inversion Hd. }
  inversion H; subst; clear H; simpl.
  destruct (must_replace (titled name listing) force pubkey).
  { repeat split; [done..|]. intros _. exists []. split; [done|simpl; lia]. }
  inversion Hd; subst; clear Hd. repeat split.
  - destruct (titled name listing) as [|k1 l]; [done|].
    inversion H; subst. by inversion Hk.
  - by destruct (titled name listing).
  - intros Hlen. by exists (titled name listing).
Qed.

End Main.

Section Changed.

Context {Remote : Type} (fetch_url : Request → Remote → GitHubResponse * Remote).

(** [changed] is set exactly when keys were deleted or none was left to
    reuse, which is when [create_key] ran. *)
Lemma ensure_key_present_changed fuel session name pubkey force check_mode
    (w w' : World Remote) r :
  ensure_key_present fetch_url fuel session name pubkey force check_mode w
    = (Return r, w') →
  changed r = true ↔ deleted_keys r ≠ [] ∨ matching_keys r = Some [].
Proof.
  unfold ensure_key_present. intros H.
  apply bind_inv in H as (listing & w1 & _ & H).
  apply bind_inv in H as ([deleted matching] & w2 & _ & H).
  apply bind_inv in H as (k & w3 & _ & H).
  inversion H; subst; clear H; simpl.
  destruct deleted, matching; simpl; split; intros; try done; auto.
  - destruct H as [?|?]; done.
Qed.

Implicit Types w : World Remote.

Lemma sent_deliver_all w (rqs : list Request) :
  sent (deliver_all fetch_url w rqs) = (sent w ++ rqs)%list.
Proof.
  unfold deliver_all. revert w. induction rqs as [|rq rqs IH]; intros w.
  - simpl. by rewrite app_nil_r.
  - cbn [foldl]. rewrite IH. unfold deliver; simpl. by rewrite <-app_assoc.
Qed.

Lemma request_deliver session m u d w :
  let rq := mkRequest m u d (request_headers session) in
  request fetch_url session m u d w
  = if bool_decide (accepted (answer fetch_url w rq))
    then (Return (answer fetch_url w rq), deliver fetch_url w rq)
    else (Raise (request_failure m u (msg (info (answer fetch_url w rq)))),
          deliver fetch_url w rq).
Proof. intros rq. by rewrite request_unfold. Qed.

(** The loop of [delete_keys], request by request: either every request
    is accepted in the world the earlier ones left and the loop returns
    after all of them, or there is a first refused one and the loop ends
    right after it with its message. *)
Lemma delete_each_run session (ks : list Key) w :
  let before i :=
    deliver_all fetch_url w (delete_request session <$> take i ks) in
  ((∀ i k, ks !! i = Some k →
      accepted (answer fetch_url (before i) (delete_request session k)))
   ∧ delete_each fetch_url session ks w
     = (Return tt, deliver_all fetch_url w (delete_request session <$> ks)))
  ∨ ∃ i k,
      ks !! i = Some k
      ∧ (∀ j k', (j < i)%nat → ks !! j = Some k' →
           accepted (answer fetch_url (before j) (delete_request session k')))
      ∧ ¬ accepted (answer fetch_url (before i) (delete_request session k))
      ∧ delete_each fetch_url session ks w
        = (Raise (request_failure DELETE (key_endpoint k)
                    (msg (info (answer fetch_url (before i)
                                  (delete_request session k))))),
           before (S i)).
Proof.
  revert w. induction ks as [|k ks IH]; intros w; cbv zeta.
  - left. split; [by intros i k ?|done].
  - change (delete_each fetch_url session (k :: ks))
      with (bind (request fetch_url session DELETE (key_endpoint k) None)
              (λ _, delete_each fetch_url session ks)).
    unfold bind at 1 2. rewrite request_deliver. cbv zeta.
    fold (delete_request session k). case_bool_decide as Hk.
    + destruct (IH (deliver fetch_url w (delete_request session k)))
        as [[Hacc Hrun]|(i & k' & Hi & Hprev & Hrej & Hrun)].
      * left. split; [|by rewrite Hrun].
        intros [|i] k' Hi; simpl in Hi; [by inversion Hi; subst|].
        by apply Hacc.
      * right. exists (S i), k'. split; [done|]. split; [|by rewrite Hrun].
        intros [|j] k'' Hj Hk''; simpl in Hk''; [by inversion Hk''; subst|].
        apply Hprev; [lia|done].
    + right. exists O, k. split; [done|]. split; [intros j k' Hj; lia|].
      by split.
Qed.

Lemma delete_each_returned session (ks : list Key) w w' :
  delete_each fetch_url session ks w = (Return tt, w') →
  w' = deliver_all fetch_url w (delete_request session <$> ks).
Proof.
  intros H. destruct (delete_each_run session ks w)
    as [[_ Hrun]|(i & k & _ & _ & _ & Hrun)]; congruence.
Qed.

Lemma create_key_trace session name pubkey w :
  sent (create_key fetch_url session name pubkey false w).2
  = (sent w ++ [create_request session name pubkey])%list.
Proof.
  unfold create_key, bind. rewrite request_unfold. cbv zeta.
  fold (create_request session name pubkey).
  case_bool_decide; [|done]. unfold json.
  by destruct (content _).
Qed.

(** A returning run of [ensure_key_present], read off the answer to the
    listing: what it reports, and the requests it sent after the GET,
    which are the DELETE requests of the keys it reports as deleted and
    the POST exactly when no matching key is left. *)
Lemma ensure_key_present_returned fuel session name pubkey force check_mode
    w r w' :
  ensure_key_present fetch_url fuel session name pubkey force check_mode w
    = (Return r, w') →
  let matches := titled name (first_page fetch_url session w) in
  deleted_keys r = (if must_replace matches force pubkey then matches else [])
  ∧ matching_keys r
    = Some (if must_replace matches force pubkey then [] else matches)
  ∧ sent w'
    = (sent w ++ list_request session ::
         (if check_mode then []
          else (delete_request session <$> deleted_keys r)
               ++ (if bool_decide (matching_keys r = Some [])
                   then [create_request session name pubkey] else [])))%list.
Proof.
  intros H matches. destruct fuel as [|fuel]; [done|].
  unfold ensure_key_present in H.
  apply bind_inv in H as (listing & w1 & Hl & H).
  rewrite get_all_keys_turn in Hl. cbv zeta in Hl.
  assert (first_page fetch_url session w = listing
          ∧ w1 = deliver fetch_url w (list_request session)) as [El ->].
  { unfold first_page, answer, deliver.
    destruct (bool_decide _); [|done].
    destruct (content _); try done.
    destruct (bool_decide _); [done|]. by inversion Hl. }
  subst matches. rewrite El. clear El Hl.
  apply bind_inv in H as ([deleted matching] & w2 & Hd & H).
  apply bind_inv in H as (k & w3 & Hk & H).
  inversion H; subst; clear H. cbn [fst snd] in *.
  cbn [deleted_keys matching_keys].
  destruct (must_replace (titled name listing) force pubkey).
  - apply bind_inv in Hd as ([] & w2' & Hd & Hr).
    inversion Hr; subst; clear Hr.
    split; [done|]. split; [done|]. rewrite bool_decide_eq_true_2 by done.
    destruct check_mode.
    + inversion Hd; subst. by inversion Hk.
    + apply delete_each_returned in Hd. subst w2.
      pose proof (create_key_trace session name pubkey
        (deliver_all fetch_url (deliver fetch_url w (list_request session))
           (delete_request session <$> titled name listing))) as Hc.
      rewrite Hk in Hc. simpl in Hc. rewrite Hc, sent_deliver_all. simpl.
      by rewrite <-!app_assoc.
  - inversion Hd; subst; clear Hd. split; [done|]. split; [done|].
    destruct (titled name listing) as [|k0 rest].
    + rewrite bool_decide_eq_true_2 by done. destruct check_mode.
      * by inversion Hk.
      * pose proof (create_key_trace session name pubkey
          (deliver fetch_url w (list_request session))) as Hc.
        rewrite Hk in Hc. simpl in Hc. rewrite Hc. simpl.
        by rewrite <-!app_assoc.
    + rewrite bool_decide_eq_false_2 by (by intros ?).
      inversion Hk; subst. simpl. by destruct check_mode.
Qed.

End Changed.

(** ** The reference service *)

Lemma filter_ext_elem {A} (P Q : A → Prop) `{!∀ x, Decision (P x)}
    `{!∀ x, Decision (Q x)} (l : list A) :
  (∀ x, x ∈ l → P x ↔ Q x) → filter P l = filter Q l.
Proof.
  induction l as [|a l IH]; intros HPQ; [done|].
  rewrite !filter_cons, IH by (intros x Hx; apply HPQ; by right).
  pose proof (HPQ a ltac:(by left)) as Ha.
  destruct (decide (P a)), (decide (Q a)); tauto.
Qed.

Lemma filter_all {A} (P : A → Prop) `{!∀ x, Decision (P x)} (l : list A) :
  (∀ x, x ∈ l → P x) → filter P l = l.
Proof.
  induction l as [|a l IH]; intros HP; [done|].
  rewrite filter_cons_True by (apply HP; by left).
  rewrite IH; [done|]. intros x Hx. apply HP. by right.
Qed.

Lemma filter_none {A} (P : A → Prop) `{!∀ x, Decision (P x)} (l : list A) :
  (∀ x, x ∈ l → ¬ P x) → filter P l = [].
Proof.
  induction l as [|a l IH]; intros HP; [done|].
  rewrite filter_cons_False by (apply HP; by left).
  apply IH. intros x Hx. apply HP. by right.
Qed.

Lemma fmap_NoDup_eq {A B} (f : A → B) (l : list A) x y :
  NoDup (f <$> l) → x ∈ l → y ∈ l → f x = f y → x = y.
Proof.
  induction l as [|a l IH]; simpl; [by intros _ ?%elem_of_nil|].
  rewrite NoDup_cons. intros [Ha Hl] Hx Hy Hf.
  apply elem_of_cons in Hx as [->|Hx]; apply elem_of_cons in Hy as [->|Hy];
    [done| | |by apply IH].
  - destruct Ha. rewrite Hf. by apply list_elem_of_fmap_2.
  - destruct Ha. rewrite <-Hf. by apply list_elem_of_fmap_2.
Qed.

Lemma key_endpoint_inj (k1 k2 : Key) :
  key_endpoint k1 = key_endpoint k2 ↔ key_id k1 = key_id k2.
Proof.
  unfold key_endpoint. split; [|by intros ->].
  intros H. do 2 apply (inj (String.app _)) in H. by apply (inj pretty) in H.
Qed.

Module GitHubFacts.
Import GitHub.

Lemma list_page_first (st : Store) : list_page st keys_url = Some 1%nat.
Proof.
  unfold list_page. rewrite <-cons_seq.
  by rewrite filter_cons_True.
Qed.

Lemma fetch_get (st : Store) (rq : Request) :
  req_method rq = GET → req_url rq = keys_url → single_page st →
  fetch_url rq st
  = (mkGitHubResponse (JArray (keys st)) (mkInfo 200 "OK (unknown bytes)" ∅), st).
Proof.
  intros Hm Hu Hs. unfold fetch_url. rewrite Hm, Hu, list_page_first.
  unfold page, link_headers, has_next. rewrite Nat.sub_diag, Nat.mul_0_l.
  rewrite Nat.mul_1_l. simpl drop. rewrite take_ge by done.
  by rewrite (proj2 (Nat.ltb_ge _ _) Hs).
Qed.

Lemma fetch_get_paged (st : Store) (rq : Request) :
  req_method rq = GET → req_url rq = keys_url → ¬ single_page st →
  ∃ r, fetch_url rq st = (r, st)
       ∧ content r = JArray (take (per_page st) (keys st))
       ∧ status (info r) = 200
       ∧ is_Some (headers (info r) !! "link").
Proof.
  intros Hm Hu Hs. unfold fetch_url. rewrite Hm, Hu, list_page_first.
  eexists; split; [done|]. simpl.
  unfold page, link_headers, has_next. rewrite Nat.sub_diag, Nat.mul_0_l.
  rewrite Nat.mul_1_l. repeat split.
  unfold single_page in Hs. apply Nat.nle_gt, Nat.ltb_lt in Hs. rewrite Hs.
  by rewrite lookup_singleton_eq.
Qed.

Lemma fetch_delete (st : Store) (rq : Request) (k : Key) :
  req_method rq = DELETE → req_url rq = key_endpoint k →
  key_id k ∈ key_id <$> keys st →
  fetch_url rq st
  = (mkGitHubResponse NoContent (mkInfo 204 "OK (0 bytes)" ∅),
     with_keys st (filter (λ k', key_id k' ≠ key_id k) (keys st))).
Proof.
  intros Hm Hu Hk. unfold fetch_url. rewrite Hm, Hu.
  rewrite bool_decide_eq_true_2.
  - unfold with_keys. do 3 f_equal. apply list_filter_iff. intros k'.
    by rewrite key_endpoint_inj.
  - apply Exists_exists. apply list_elem_of_fmap in Hk as (k' & E & Hk').
    exists k'. split; [done|]. by apply key_endpoint_inj.
Qed.

Lemma fetch_post (st : Store) (rq : Request) (name pubkey : string) :
  req_method rq = POST → req_url rq = keys_url →
  req_data rq = Some (mkNewKey name pubkey) →
  fetch_url rq st
  = (mkGitHubResponse (JObject (created st name pubkey))
       (mkInfo 201 "OK (unknown bytes)" ∅),
     with_keys st (keys st ++ [created st name pubkey])).
Proof.
  intros Hm Hu Hd. unfold fetch_url. rewrite Hm, Hu, Hd.
  by rewrite bool_decide_eq_true_2.
Qed.

End GitHubFacts.

(** ** The module against the reference service *)

Section Reference.

Import GitHub GitHubFacts.
Implicit Types w : World Store.

Variable session : GitHubSession.

(** On a listing of one page [get_all_keys] returns the keys of the
    store after one GET, for any positive fuel. *)
Lemma get_all_keys_single_page fuel w :
  single_page (remote w) →
  get_all_keys fetch_url (S fuel) session w
  = (Return (keys (remote w)),
     mkWorld (remote w) (sent w ++ [list_request session]) (clock w)).
Proof.
  intros Hs. unfold get_all_keys.
  pose proof (fetch_get (remote w) (list_request session) eq_refl eq_refl Hs)
    as Hf.
  rewrite (get_all_keys_from_last fetch_url fuel session _ w (keys (remote w)));
    fold (list_request session); rewrite ?Hf; simpl;
    first [done | lia | apply lookup_empty].
Qed.

(** On a listing of several pages the first response carries a Link
    header and the run ends in the attribute error. *)
Lemma get_all_keys_paged fuel w :
  ¬ single_page (remote w) →
  get_all_keys fetch_url (S fuel) session w
  = (Raise NO_RE_INFO,
     mkWorld (remote w) (sent w ++ [list_request session]) (clock w)).
Proof.
  intros Hs. unfold get_all_keys.
  destruct (fetch_get_paged (remote w) (list_request session) eq_refl eq_refl Hs)
    as (r & Hf & Hc & Hst & Hl).
  rewrite (get_all_keys_from_link fetch_url fuel session _ w
             (take (per_page (remote w)) (keys (remote w))));
    fold (list_request session); rewrite ?Hf; simpl; try done.
  rewrite Hst. lia.
Qed.

Lemma delete_each_removes (ds : list Key) w :
  NoDup (key_id <$> ds) →
  (∀ k, k ∈ ds → key_id k ∈ key_id <$> keys (remote w)) →
  delete_each fetch_url session ds w
  = (Return tt,
     mkWorld (with_keys (remote w)
                (filter (λ k, key_id k ∉ key_id <$> ds) (keys (remote w))))
             (sent w ++ (delete_request session <$> ds)) (clock w)).
Proof.
  revert w. induction ds as [|d ds IH]; intros w Hnd Hin.
  - simpl. unfold ret, with_keys. rewrite app_nil_r.
    rewrite filter_all by (intros k _; apply not_elem_of_nil).
    by destruct w as [[ks pp stp] log clk].
  - rewrite fmap_cons, NoDup_cons in Hnd. destruct Hnd as [Hd Hnd].
    change (delete_each fetch_url session (d :: ds))
      with (bind (request fetch_url session DELETE (key_endpoint d) None)
              (λ _, delete_each fetch_url session ds)).
    unfold bind at 1. rewrite request_unfold. cbv zeta.
    fold (delete_request session d).
    rewrite (fetch_delete (remote w) (delete_request session d) d eq_refl eq_refl)
      by (apply Hin; by left).
    simpl. rewrite IH; simpl; [| done |].
    + unfold with_keys; simpl. rewrite list_filter_filter, <-app_assoc.
      do 3 f_equal. apply list_filter_iff. intros k.
      rewrite not_elem_of_cons. tauto.
    + intros k Hk.
      pose proof (Hin k ltac:(by right)) as Hk'.
      apply list_elem_of_fmap in Hk' as (k' & E & Hk').
      apply list_elem_of_fmap. exists k'. split; [done|].
      apply list_elem_of_filter. split; [|done].
      intros E'. apply Hd. rewrite <-E', <-E. by apply list_elem_of_fmap_2.
Qed.

Lemma titled_ids (name : string) (ks : list Key) :
  NoDup (key_id <$> ks) →
  filter (λ k, key_id k ∉ key_id <$> titled name ks) ks
  = filter (λ k, key_title k ≠ name) ks.
Proof.
  intros Hnd. apply filter_ext_elem. intros k Hk. split.
  - intros Hid Ht. apply Hid, list_elem_of_fmap_2.
    by apply list_elem_of_filter.
  - intros Ht (k' & E & Hk')%list_elem_of_fmap.
    apply list_elem_of_filter in Hk' as [Ht' Hk'].
    by rewrite (fmap_NoDup_eq key_id ks k k' Hnd Hk Hk' E) in Ht.
Qed.

Lemma delete_keys_titled (name : string) w :
  well_formed (remote w) →
  delete_keys fetch_url session (titled name (keys (remote w))) false w
  = (Return tt,
     mkWorld (without name (remote w))
             (sent w ++ (delete_request session <$> titled name (keys (remote w))))
             (clock w)).
Proof.
  intros Hwf. unfold delete_keys. rewrite delete_each_removes.
  - unfold without. by rewrite titled_ids.
  - eapply sublist_NoDup; [exact Hwf|]. apply fmap_sublist, sublist_filter.
  - intros k [_ Hk]%list_elem_of_filter. by apply list_elem_of_fmap_2.
Qed.

Lemma create_key_posts (name pubkey : string) w :
  create_key fetch_url session name pubkey false w
  = (Return (JObject (created (remote w) name pubkey)),
     mkWorld (with_keys (remote w)
                (keys (remote w) ++ [created (remote w) name pubkey]))
             (sent w ++ [create_request session name pubkey]) (clock w)).
Proof.
  unfold create_key, bind. rewrite request_unfold. cbv zeta.
  fold (create_request session name pubkey).
  by rewrite (fetch_post (remote w) (create_request session name pubkey)
                name pubkey eq_refl eq_refl eq_refl).
Qed.

(** X22. On a service with distinct identifiers whose listing fits one
    page, [ensure_key_absent] lists the keys, sends one DELETE per key
    titled [name], addressed by its identifier, unless in check mode, and
    reports [changed] exactly when there was such a key, with all of them
    as [deleted_keys] in either mode. Afterwards the service holds no key
    of that title (outside check mode) and every other key as before. *)
Theorem ensure_key_absent_deletes_all fuel name check_mode w :
  well_formed (remote w) → single_page (remote w) →
  let matches := titled name (keys (remote w)) in
  ensure_key_absent fetch_url (S fuel) session name check_mode w
  = (Return {| changed := negb (bool_decide (matches = []));
               deleted_keys := matches;
               matching_keys := None;
               key := None |},
     mkWorld (if check_mode then remote w else without name (remote w))
             (sent w ++ list_request session ::
                (if check_mode then [] else delete_request session <$> matches))
             (clock w))
  ∧ (negb (bool_decide (matches = [])) = true ↔ matches ≠ [])
  ∧ Forall (λ k, req_url (delete_request session k)
                 = API_BASE +:+ "/user/keys/" +:+ pretty (key_id k)) matches
  ∧ titled name (keys (without name (remote w))) = []
  ∧ (∀ k, key_title k ≠ name →
       k ∈ keys (without name (remote w)) ↔ k ∈ keys (remote w)).
Proof.
  intros Hwf Hs matches. repeat split.
  - unfold ensure_key_absent. unfold bind at 1.
    rewrite get_all_keys_single_page by done. fold matches.
    destruct check_mode.
    + unfold bind; simpl. by destruct w as [[ks pp stp] log clk].
    + unfold bind at 1. subst matches.
      pose proof (delete_keys_titled name
        (mkWorld (remote w) (sent w ++ [list_request session]) (clock w)) Hwf)
        as Hd.
      cbn [remote sent clock] in Hd. rewrite Hd.
      unfold ret; simpl. by rewrite <-app_assoc.
  - intros H E. by rewrite E in H.
  - intros H. by rewrite bool_decide_eq_false_2.
  - by apply Forall_forall.
  - unfold without, titled; simpl. rewrite list_filter_filter.
    apply filter_none. intros k _ [H1 H2]. done.
  - unfold without; simpl. by intros [_ ?]%list_elem_of_filter.
  - intros Hk. unfold without; simpl. by apply list_elem_of_filter.
Qed.

(** The run of [ensure_key_present] on a listing of one page, case by
    case. *)
Lemma ensure_key_present_run fuel name pubkey force check_mode w :
  well_formed (remote w) → single_page (remote w) →
  let matches := titled name (keys (remote w)) in
  let listed := mkWorld (remote w) (sent w ++ [list_request session]) (clock w) in
  let made := JObject (synthetic_key name pubkey (clock w)) in
  ensure_key_present fetch_url (S fuel) session name pubkey force check_mode w
  = if must_replace matches force pubkey then
      if check_mode then
        (Return (mkResult true matches (Some []) (Some made)), listed)
      else
        let st := without name (remote w) in
        (Return (mkResult true matches (Some [])
                   (Some (JObject (created st name pubkey)))),
         mkWorld (with_keys st (keys st ++ [created st name pubkey]))
                 (sent w ++ list_request session ::
                    (delete_request session <$> matches)
                    ++ [create_request session name pubkey])
                 (clock w))
    else
      match matches with
      | [] =>
          if check_mode then
            (Return (mkResult true [] (Some []) (Some made)), listed)
          else
            let st := remote w in
            (Return (mkResult true [] (Some [])
                       (Some (JObject (created st name pubkey)))),
             mkWorld (with_keys st (keys st ++ [created st name pubkey]))
                     (sent w ++ [list_request session;
                                 create_request session name pubkey])
                     (clock w))
      | k0 :: _ =>
          (Return (mkResult false [] (Some matches) (Some (JObject k0))), listed)
      end.
Proof.
  intros Hwf Hs matches listed made.
  unfold ensure_key_present. unfold bind at 1.
  rewrite get_all_keys_single_page by done. fold matches. fold listed.
  destruct (must_replace matches force pubkey); [destruct check_mode|].
  - unfold bind, ret, utcnow; simpl. by rewrite orb_true_r.
  - pose proof (delete_keys_titled name listed Hwf) as Hd.
    cbn [remote sent clock listed] in Hd. fold matches in Hd.
    unfold bind at 1. unfold bind at 1. rewrite Hd. unfold ret at 1.
    cbn [fst snd]. unfold bind at 1. rewrite create_key_posts.
    cbn [remote sent clock]. unfold ret. rewrite orb_true_r.
    by rewrite <-!app_assoc.
  - unfold bind at 1. unfold ret at 1. cbn [fst snd].
    destruct matches as [|k0 rest]; [destruct check_mode|].
    + done.
    + unfold bind at 1. rewrite create_key_posts.
      cbn [remote sent clock listed]. unfold ret. by rewrite <-!app_assoc.
    + done.
Qed.

(** C2, as amended. On a service with distinct identifiers whose listing
    fits one page, with a first match [K] whose material differs from the
    requested key: under [force] all keys titled [name] are reported in
    [deleted_keys], [changed] is set, [matching_keys] is empty and the
    resulting key has the requested title and material; outside check
    mode one DELETE per match and then the POST are sent and the service
    then holds the new key as the only one of that title, while in check
    mode nothing but the GET is sent and the service is as before.
    Without [force] nothing is deleted, [changed] is unset and the
    resulting key is [K]. For every returning run [changed] is set
    exactly when keys are reported deleted or no matching key is left,
    and outside check mode the requests after the GET are the DELETE of
    each key reported deleted followed by the POST exactly when no
    matching key is left, so [changed] is set exactly when a DELETE or the
    POST was sent. *)
Theorem force_semantics fuel name pubkey force check_mode w K rest :
  well_formed (remote w) → single_page (remote w) →
  titled name (keys (remote w)) = K :: rest → key_key K ≠ pubkey →
  ∃ r w',
    ensure_key_present fetch_url (S fuel) session name pubkey force check_mode w
      = (Return r, w')
    ∧ (if force then
         changed r = true ∧ deleted_keys r = K :: rest
         ∧ matching_keys r = Some []
         ∧ ∃ k, key r = Some (JObject k) ∧ key_key k = pubkey
                ∧ key_title k = name
                ∧ if check_mode then
                    remote w' = remote w
                    ∧ sent w' = (sent w ++ [list_request session])%list
                  else
                    keys (remote w')
                      = (filter (λ k', key_title k' ≠ name) (keys (remote w))
                         ++ [k])%list
                    ∧ titled name (keys (remote w')) = [k]
                    ∧ sent w'
                      = (sent w ++ list_request session ::
                           (delete_request session <$> K :: rest)
                           ++ [create_request session name pubkey])%list
       else
         changed r = false ∧ deleted_keys r = [] ∧ matching_keys r = Some (K :: rest)
         ∧ key r = Some (JObject K) ∧ remote w' = remote w
         ∧ sent w' = (sent w ++ [list_request session])%list)
    ∧ (∀ fuel' name' pubkey' force' (check_mode' : bool) w0 r0 w0',
         ensure_key_present fetch_url fuel' session name' pubkey' force'
           check_mode' w0 = (Return r0, w0') →
         (changed r0 = true ↔ deleted_keys r0 ≠ [] ∨ matching_keys r0 = Some [])
         ∧ sent w0'
           = (sent w0 ++ list_request session ::
                (if check_mode' then []
                 else (delete_request session <$> deleted_keys r0)
                      ++ (if bool_decide (matching_keys r0 = Some [])
                          then [create_request session name' pubkey']
                          else [])))%list).
Proof.
  intros Hwf Hs Hm HK.
  pose proof (ensure_key_present_run fuel name pubkey force check_mode w Hwf Hs)
    as Hrun. cbv zeta in Hrun. rewrite Hm in Hrun.
  assert (must_replace (K :: rest) force pubkey = force) as Hmr.
  { simpl. rewrite bool_decide_eq_false_2 by done. by destruct force. }
  rewrite Hmr in Hrun.
  assert (∀ fuel' name' pubkey' force' (check_mode' : bool) w0 r0 w0',
    ensure_key_present fetch_url fuel' session name' pubkey' force'
      check_mode' w0 = (Return r0, w0') →
    (changed r0 = true ↔ deleted_keys r0 ≠ [] ∨ matching_keys r0 = Some [])
    ∧ sent w0'
      = (sent w0 ++ list_request session ::
           (if check_mode' then []
            else (delete_request session <$> deleted_keys r0)
                 ++ (if bool_decide (matching_keys r0 = Some [])
                     then [create_request session name' pubkey']
                     else [])))%list) as Hgeneral.
  { intros fuel' name' pubkey' force' check_mode' w0 r0 w0' Hret.
    split; [by eapply ensure_key_present_changed|].
    by apply ensure_key_present_returned in Hret as (_ & _ & Hsent). }
  destruct force; [destruct check_mode|];
    (eexists _, _; split; [exact Hrun|]; split; [|exact Hgeneral]); simpl.
  - repeat split. eexists; repeat split.
  - repeat split. eexists; repeat split.
    unfold titled. rewrite filter_app, list_filter_filter.
    rewrite filter_none by (by intros k _ [? ?]).
    by rewrite filter_cons_True.
  - done.
Qed.

Lemma fresh_id_above (ks : list Key) (k : Key) :
  k ∈ ks → key_id k < fresh_id ks.
Proof.
  unfold fresh_id. induction ks as [|a ks IH]; [by intros ?%elem_of_nil|].
  intros [->|Hk]%elem_of_cons; rewrite fmap_cons; cbn [foldr]; [lia|].
  specialize (IH Hk). lia.
Qed.

(** Creating a key keeps the identifiers distinct. *)
Lemma well_formed_created (st : Store) (name pubkey : string) :
  well_formed st →
  well_formed (with_keys st (keys st ++ [created st name pubkey])).
Proof.
  unfold well_formed; simpl. intros Hwf. rewrite fmap_app.
  apply NoDup_app. split; [done|]. split; [|apply NoDup_singleton].
  intros i (k & -> & Hk)%list_elem_of_fmap. simpl.
  intros Hi%list_elem_of_singleton.
  pose proof (fresh_id_above _ _ Hk). lia.
Qed.

Lemma well_formed_without (st : Store) (name : string) :
  well_formed st → well_formed (without name st).
Proof.
  unfold well_formed; simpl. intros Hwf.
  eapply sublist_NoDup; [exact Hwf|]. apply fmap_sublist, sublist_filter.
Qed.

(** A run right after the key was created finds it and changes nothing. *)
Lemma present_again fuel name pubkey force (st : Store) log clk :
  well_formed st → (length (keys st) < per_page st)%nat →
  titled name (keys st) = [] →
  let k := created st name pubkey in
  let w1 := mkWorld (with_keys st (keys st ++ [k])) log clk in
  titled name (keys (remote w1)) = [k]
  ∧ ensure_key_present fetch_url (S fuel) session name pubkey force false w1
    = (Return (mkResult false [] (Some [k]) (Some (JObject k))),
       mkWorld (remote w1) (log ++ [list_request session]) clk).
Proof.
  intros Hwf Hlen Hno k w1.
  assert (titled name (keys (remote w1)) = [k]) as Ht.
  { simpl. unfold titled in *. rewrite filter_app, Hno.
    by rewrite filter_cons_True. }
  split; [done|].
  rewrite ensure_key_present_run.
  - cbv zeta. rewrite Ht. simpl must_replace.
    rewrite bool_decide_eq_true_2 by done. by rewrite andb_false_r.
  - by apply well_formed_created.
  - unfold single_page; simpl. rewrite length_app; simpl. lia.
Qed.

(** C3, as amended. Outside check mode, on a service with distinct
    identifiers that holds fewer keys than fit one page, and on which the
    first run has a key to create (no key of the title, or [force] and a
    first match of other material), two runs in a row give [changed] set
    and then unset, and after each run exactly one key of the title is
    left, with the requested material. *)
Theorem present_twice fuel1 fuel2 name pubkey force w :
  well_formed (remote w) →
  (length (keys (remote w)) < per_page (remote w))%nat →
  titled name (keys (remote w)) = []
  ∨ must_replace (titled name (keys (remote w))) force pubkey = true →
  ∃ r1 w1 r2 w2 k,
    ensure_key_present fetch_url (S fuel1) session name pubkey force false w
      = (Return r1, w1)
    ∧ ensure_key_present fetch_url (S fuel2) session name pubkey force false w1
      = (Return r2, w2)
    ∧ changed r1 = true ∧ changed r2 = false
    ∧ titled name (keys (remote w1)) = [k]
    ∧ titled name (keys (remote w2)) = [k]
    ∧ key_key k = pubkey
    ∧ key r1 = Some (JObject k) ∧ key r2 = Some (JObject k).
Proof.
  intros Hwf Hlen Hcase.
  assert (single_page (remote w)) as Hs by (unfold single_page; lia).
  pose proof (ensure_key_present_run fuel1 name pubkey force false w Hwf Hs)
    as Hrun. cbv zeta in Hrun.
  destruct (must_replace (titled name (keys (remote w))) force pubkey) eqn:Hmr.
  - edestruct (present_again fuel2 name pubkey force (without name (remote w)))
      as [Ht Hrun2].
    + by apply well_formed_without.
    + simpl. pose proof (length_filter (λ k, key_title k ≠ name)
                           (keys (remote w))). lia.
    + simpl. unfold titled. rewrite list_filter_filter.
      apply filter_none. by intros k _ [? ?].
    + eexists _, _, _, _, _. split; [exact Hrun|]. split; [exact Hrun2|].
      by repeat split.
  - destruct Hcase as [Hno|?]; [|done]. rewrite Hno in Hrun.
    edestruct (present_again fuel2 name pubkey force (remote w))
      as [Ht Hrun2]; [done..|].
    eexists _, _, _, _, _. split; [exact Hrun|]. split; [exact Hrun2|].
    by repeat split.
Qed.

End Reference.

(** ** Runs on sample data *)

(** C1. The listing of three keys in pages of one: the first response
    carries the Link header with the next relation, [links] fails on its
    attribute lookup, and the run ends after the first GET with no key
    listed and no second request. *)
Theorem get_all_keys_stops_at_link :
  let w := sample_world [deploy_key; backup_key; deploy_twin] 1 in
  let first := (GitHub.fetch_url (list_request sample_session) (remote w)).1 in
  content first = JArray [deploy_key]
  ∧ headers (info first) !! "link"
    = Some (GitHub.link_entry (GitHub.page_url 2) "next")
  ∧ findall (GitHub.link_entry (GitHub.page_url 2) "next")
    = [(GitHub.page_url 2, "next")]
  ∧ get_all_keys GitHub.fetch_url 3 sample_session w
    = (Raise NO_RE_INFO,
       mkWorld (remote w) [list_request sample_session] (clock w)).
Proof. vm_compute. by repeat split. Qed.

(** C6. The account of three keys in pages of one, two of them titled
    deploy-key: [ensure_key_absent] ends in the attribute error of
    [links] after the first GET; no DELETE is sent and both keys of the
    title are still held. *)
Theorem ensure_key_absent_stops_at_link :
  let w := sample_world [deploy_key; backup_key; deploy_twin] 1 in
  titled "deploy-key" (GitHub.keys (remote w)) = [deploy_key; deploy_twin]
  ∧ ensure_key_absent GitHub.fetch_url 3 sample_session "deploy-key" false w
    = (Raise NO_RE_INFO,
       mkWorld (remote w) [list_request sample_session] (clock w)).
Proof. vm_compute. by split. Qed.

(** C2, the claim as stated fails: in check mode, with [force] and a
    first match of other material, the run reports the match as deleted
    and a change, but sends no DELETE and no POST; the match is still
    held and no key of the requested material exists. *)
Lemma force_semantics_counterexample :
  let w := sample_world [deploy_key; backup_key] 30 in
  ∃ r w',
    ensure_key_present GitHub.fetch_url 1 sample_session "deploy-key"
      "ssh-rsa BBBB" true true w = (Return r, w')
    ∧ changed r = true ∧ deleted_keys r = [deploy_key]
    ∧ sent w' = [list_request sample_session]
    ∧ GitHub.keys (remote w') = [deploy_key; backup_key]
    ∧ filter (λ k, key_key k = "ssh-rsa BBBB") (GitHub.keys (remote w')) = [].
Proof.
  eexists _, _. split; [vm_compute; reflexivity|]. by repeat split.
Qed.

(** C3, the claim as stated fails: when the service already holds the
    key the first run reports no change, and in check mode both runs
    report a change and no key is ever stored. *)
Lemma present_twice_counterexample :
  (let w := sample_world [deploy_key] 30 in
   ∃ r w', ensure_key_present GitHub.fetch_url 1 sample_session "deploy-key"
             "ssh-rsa AAAA" true false w = (Return r, w')
           ∧ changed r = false)
  ∧ (let w := sample_world [] 30 in
     ∃ r1 w1 r2 w2,
       ensure_key_present GitHub.fetch_url 1 sample_session "deploy-key"
         "ssh-rsa AAAA" true true w = (Return r1, w1)
       ∧ ensure_key_present GitHub.fetch_url 1 sample_session "deploy-key"
           "ssh-rsa AAAA" true true w1 = (Return r2, w2)
       ∧ changed r1 = true ∧ changed r2 = true
       ∧ GitHub.keys (remote w2) = []).
Proof.
  split.
  - eexists _, _. split; [vm_compute; reflexivity|]. reflexivity.
  - eexists _, _, _, _. split; [vm_compute; reflexivity|].
    split; [vm_compute; reflexivity|]. by repeat split.
Qed.

(** C7, the claim as stated fails: the key is split at every single
    space, not at runs of whitespace. Two spaces leave an empty second
    part, and a tab does not separate at all. *)
Lemma normalize_pubkey_counterexample :
  normalize_pubkey "ssh-rsa  AAAA comment" = Some "ssh-rsa "
  ∧ normalize_pubkey_spec "ssh-rsa  AAAA comment" = Some "ssh-rsa AAAA"
  ∧ normalize_pubkey ("ssh-rsa" +:+ str tab +:+ "AAAA") = None
  ∧ normalize_pubkey_spec ("ssh-rsa" +:+ str tab +:+ "AAAA")
    = Some "ssh-rsa AAAA".
Proof. by repeat split. Qed.

(** C8, the claim as stated fails: with [state=absent] a [pubkey] of one
    token is still rejected. *)
Lemma absent_pubkey_counterexample :
  let w := sample_world [deploy_key] 30 in
  main GitHub.fetch_url 1 (sample_params (Some "ssh-rsa") absent) w
  = (Raise (FailJson MSG_INVALID), w).
Proof. reflexivity. Qed.

(** C9, the claim as stated fails: with two keys of the title and no
    [force], [matching_keys] holds both. *)
Lemma matching_keys_counterexample :
  let w := sample_world [deploy_key; backup_key; deploy_twin] 30 in
  ∃ r w', ensure_key_present GitHub.fetch_url 1 sample_session "deploy-key"
            "ssh-rsa BBBB" false false w = (Return r, w')
          ∧ matching_keys r = Some [deploy_key; deploy_twin].
Proof. eexists _, _. split; [vm_compute; reflexivity|]. reflexivity. Qed.

(** ** Key normalization *)

Section Normalization.

Context {Remote : Type} (fetch_url : Request → Remote → GitHubResponse * Remote).

(** C7, as amended. The key is split at every single space character.
    Normalization fails exactly when the key holds no space, and
    otherwise keeps the first two parts joined by one space: for a
    protocol and key data without spaces, separated by one space, these
    two are kept and a comment after a further space is dropped. [main]
    hands the result to [ensure_key_present]. *)
Theorem normalize_pubkey_first_two_parts fuel tok name force check_mode
    raw proto data comment (w : World Remote) :
  occurs space proto = O → occurs space data = O →
  (normalize_pubkey raw = None ↔ occurs space raw = O)
  ∧ normalize_pubkey raw
    = match split space raw with
      | p :: d :: _ => Some (p +:+ " " +:+ d)
      | _ => None
      end
  ∧ normalize_pubkey (proto +:+ " " +:+ data) = Some (proto +:+ " " +:+ data)
  ∧ normalize_pubkey (proto +:+ " " +:+ data +:+ " " +:+ comment)
    = Some (proto +:+ " " +:+ data)
  ∧ main fetch_url fuel (mkParams tok name (Some raw) present force check_mode) w
    = if truthy raw then
        match normalize_pubkey raw with
        | None => (Raise (FailJson MSG_INVALID), w)
        | Some pubkey =>
            ensure_key_present fetch_url fuel (mkGitHubSession tok) name
              pubkey force check_mode w
        end
      else (Raise (FailJson MSG_REQUIRED), w).
Proof.
  intros Hp Hd. split; [apply normalize_pubkey_fails|].
  split; [|split; [by apply normalize_pubkey_two|
           split; [by apply normalize_pubkey_comment|]]].
  - unfold normalize_pubkey.
    by destruct (split space raw) as [|p [|d ps]].
  - unfold main; simpl. destruct (truthy raw); [|done].
    by destruct (normalize_pubkey raw).
Qed.

End Normalization.

(** ** Instances of the statements with hypotheses *)

Lemma sample_well_formed :
  GitHub.well_formed (GitHub.mkStore [deploy_key; backup_key; deploy_twin] 30
                        sample_stamp).
Proof.
  unfold GitHub.well_formed. apply (bool_decide_unpack _).
  vm_compute. exact I.
Defined.

Lemma force_semantics_witness :
  let w := sample_world [deploy_key; backup_key; deploy_twin] 30 in
  GitHub.well_formed (remote w) ∧ GitHub.single_page (remote w)
  ∧ titled "deploy-key" (GitHub.keys (remote w)) = [deploy_key; deploy_twin]
  ∧ key_key deploy_key ≠ "ssh-rsa BBBB"
  ∧ ∃ r w',
      ensure_key_present GitHub.fetch_url 1 sample_session "deploy-key"
        "ssh-rsa BBBB" true false w = (Return r, w')
      ∧ changed r = true ∧ deleted_keys r = [deploy_key; deploy_twin].
Proof.
  intros w.
  assert (GitHub.single_page (remote w)) as Hs by (vm_compute; lia).
  assert (titled "deploy-key" (GitHub.keys (remote w))
          = [deploy_key; deploy_twin]) as Ht by reflexivity.
  assert (key_key deploy_key ≠ "ssh-rsa BBBB") as Hk by discriminate.
  repeat split; try done. { apply sample_well_formed. }
  destruct (force_semantics sample_session 0 "deploy-key" "ssh-rsa BBBB" true
              false w deploy_key [deploy_twin] sample_well_formed Hs Ht Hk)
    as (r & w' & Hrun & (Hc & Hdel & _) & _).
  by exists r, w'.
Defined.

Lemma present_twice_witness :
  let w := sample_world [deploy_key; backup_key; deploy_twin] 30 in
  GitHub.well_formed (remote w)
  ∧ (length (GitHub.keys (remote w)) < GitHub.per_page (remote w))%nat
  ∧ must_replace (titled "deploy-key" (GitHub.keys (remote w))) true
      "ssh-rsa BBBB" = true
  ∧ ∃ r1 w1 r2 w2 k,
      ensure_key_present GitHub.fetch_url 1 sample_session "deploy-key"
        "ssh-rsa BBBB" true false w = (Return r1, w1)
      ∧ ensure_key_present GitHub.fetch_url 1 sample_session "deploy-key"
          "ssh-rsa BBBB" true false w1 = (Return r2, w2)
      ∧ changed r1 = true ∧ changed r2 = false
      ∧ titled "deploy-key" (GitHub.keys (remote w1)) = [k]
      ∧ titled "deploy-key" (GitHub.keys (remote w2)) = [k]
      ∧ key_key k = "ssh-rsa BBBB"
      ∧ key r1 = Some (JObject k) ∧ key r2 = Some (JObject k).
Proof.
  intros w.
  assert (length (GitHub.keys (remote w)) < GitHub.per_page (remote w))%nat
    as Hlen by (vm_compute; lia).
  assert (must_replace (titled "deploy-key" (GitHub.keys (remote w))) true
            "ssh-rsa BBBB" = true) as Hm by reflexivity.
  repeat split; try done. { apply sample_well_formed. }
  exact (present_twice sample_session 0 0 "deploy-key" "ssh-rsa BBBB" true w
           sample_well_formed Hlen (or_intror Hm)).
Defined.

Lemma validation_before_requests_witness :
  let w := sample_world [deploy_key] 30 in
  "ssh-rsa" ≠ EmptyString ∧ occurs space "ssh-rsa" = O
  ∧ main GitHub.fetch_url 1 (sample_params (Some "ssh-rsa") present) w
    = (Raise (FailJson MSG_INVALID), w)
  ∧ main GitHub.fetch_url 1 (sample_params None present) w
    = (Raise (FailJson MSG_REQUIRED), w)
  ∧ main GitHub.fetch_url 1 (sample_params None absent) w
    = ensure_key_absent GitHub.fetch_url 1 sample_session "deploy-key" false w
  ∧ ¬ validation_error
        (main GitHub.fetch_url 1 (sample_params None absent) w).1.
Proof.
  intros w.
  assert ("ssh-rsa" ≠ EmptyString) as Hne by discriminate.
  assert (occurs space "ssh-rsa" = O) as Hsp by reflexivity.
  split; [done|]. split; [done|].
  exact (validation_before_requests GitHub.fetch_url 1 "0123abcd" "deploy-key"
           present true false "ssh-rsa" w Hne Hsp).
Defined.

Lemma ensure_key_absent_deletes_all_witness :
  let w := sample_world [deploy_key; backup_key; deploy_twin] 30 in
  GitHub.well_formed (remote w) ∧ GitHub.single_page (remote w)
  ∧ ensure_key_absent GitHub.fetch_url 1 sample_session "deploy-key" false w
    = (Return (mkResult true [deploy_key; deploy_twin] None None),
       mkWorld (GitHub.mkStore [backup_key] 30 sample_stamp)
               [list_request sample_session;
                delete_request sample_session deploy_key;
                delete_request sample_session deploy_twin]
               (clock w)).
Proof.
  intros w.
  assert (GitHub.single_page (remote w)) as Hs by (vm_compute; lia).
  split; [apply sample_well_formed|]. split; [done|].
  exact (proj1 (ensure_key_absent_deletes_all sample_session 0 "deploy-key"
                  false w sample_well_formed Hs)).
Defined.

Lemma normalize_pubkey_first_two_parts_witness :
  let w := sample_world [] 30 in
  occurs space "ssh-ed25519" = O ∧ occurs space "AAAAC3N" = O
  ∧ normalize_pubkey ("ssh-ed25519" +:+ " " +:+ "AAAAC3N" +:+ " " +:+ "me@host")
    = Some ("ssh-ed25519" +:+ " " +:+ "AAAAC3N").
Proof.
  intros w.
  assert (occurs space "ssh-ed25519" = O) as Hp by reflexivity.
  assert (occurs space "AAAAC3N" = O) as Hd by reflexivity.
  split; [done|]. split; [done|].
  exact (proj1 (proj2 (proj2 (proj2
    (normalize_pubkey_first_two_parts GitHub.fetch_url 1 "0123abcd"
       "deploy-key" true false "ssh-ed25519 AAAAC3N me@host" "ssh-ed25519"
       "AAAAC3N" "me@host" w Hp Hd))))).
Defined.

Lemma matching_keys_are_all_matches_witness :
  let w := sample_world [deploy_key; backup_key; deploy_twin] 30 in
  let r := mkResult false [] (Some [deploy_key; deploy_twin])
                    (Some (JObject deploy_key)) in
  let w' := mkWorld (remote w) [list_request sample_session] (clock w) in
  ensure_key_present GitHub.fetch_url 1 sample_session "deploy-key"
    "ssh-rsa BBBB" false false w = (Return r, w')
  ∧ ∃ listing w1,
      get_all_keys GitHub.fetch_url 1 sample_session w = (Return listing, w1)
      ∧ matching_keys r
        = Some (if must_replace (titled "deploy-key" listing) false "ssh-rsa BBBB"
                then [] else titled "deploy-key" listing).
Proof.
  intros w r w'.
  assert (ensure_key_present GitHub.fetch_url 1 sample_session "deploy-key"
            "ssh-rsa BBBB" false false w = (Return r, w')) as Hrun
    by (vm_compute; reflexivity).
  split; [done|].
  destruct (matching_keys_are_all_matches GitHub.fetch_url 1 sample_session
              "deploy-key" "ssh-rsa BBBB" false false w r w' Hrun)
    as (listing & w1 & Hl & Hm & _).
  by exists listing, w1.
Defined.

(** * Further properties of the module *)

(** ** The parts of a key *)

Lemma string_app_assoc (a b c : string) : (a +:+ b) +:+ c = a +:+ b +:+ c.
Proof.
  induction a as [|x a IH]; [done|].
  change (String x ((a +:+ b) +:+ c) = String x (a +:+ b +:+ c)).
  by rewrite IH.
Qed.

Lemma string_app_nil_r (a : string) : a +:+ EmptyString = a.
Proof.
  induction a as [|x a IH]; [done|].
  change (String x (a +:+ EmptyString) = String x a). by rewrite IH.
Qed.

Section Parts.

Variable sep : ascii.

Lemma join_cons_char (c : ascii) (p : string) (ps : list string) :
  join (str sep) (String c p :: ps) = String c (join (str sep) (p :: ps)).
Proof. by destruct ps. Qed.

(** Joining the parts with the separator gives the string back. *)
Lemma join_split (s : string) : join (str sep) (split sep s) = s.
Proof.
  induction s as [|c s IH]; simpl; [done|].
  destruct (split_cons sep s) as (p & ps & E). rewrite E in IH |- *.
  destruct (Ascii.eqb c sep) eqn:Hc.
  - apply Ascii.eqb_eq in Hc as ->.
    change (join (str sep) (EmptyString :: p :: ps))
      with (String sep (join (str sep) (p :: ps))).
    by rewrite IH.
  - by rewrite join_cons_char, IH.
Qed.

(** No part holds the separator. *)
Lemma split_parts_clean (s : string) :
  Forall (λ p, occurs sep p = O) (split sep s).
Proof.
  induction s as [|c s IH]; simpl; [by repeat constructor|].
  destruct (split_cons sep s) as (p & ps & E). rewrite E in IH |- *.
  apply Forall_cons in IH as [Hp Hps].
  destruct (Ascii.eqb c sep) eqn:Hc.
  - by repeat constructor.
  - constructor; [|done]. simpl. by rewrite Hc.
Qed.

Lemma occurs_app (a b : string) :
  occurs sep (a +:+ b) = (occurs sep a + occurs sep b)%nat.
Proof.
  induction a as [|x a IH]; [done|].
  change (occurs sep (String x (a +:+ b))
          = (occurs sep (String x a) + occurs sep b)%nat).
  simpl. rewrite IH. lia.
Qed.

End Parts.

(** X1. A normalized key is stable: normalizing it again gives the same
    key, which holds exactly one space. *)
Theorem normalize_pubkey_idempotent (raw k : string) :
  normalize_pubkey raw = Some k →
  normalize_pubkey k = Some k ∧ occurs space k = 1%nat.
Proof.
  unfold normalize_pubkey at 1. intros H.
  pose proof (split_parts_clean space raw) as Hc.
  destruct (split space raw) as [|p [|d ps]]; try done.
  simpl in H. assert (k = p +:+ " " +:+ d) as -> by (destruct ps; congruence).
  apply Forall_cons in Hc as [Hp Hc]. apply Forall_cons in Hc as [Hd _].
  split; [by apply normalize_pubkey_two|].
  rewrite occurs_app. change (" " +:+ d) with (String space d).
  simpl. rewrite Hp, Hd. done.
Qed.

(** X2. Normalization only cuts the key short: the normalized key is
    the start of the raw key, and what is cut is empty or begins with the
    space before the comment. *)
Theorem normalize_pubkey_prefix (raw k : string) :
  normalize_pubkey raw = Some k →
  ∃ rest, raw = k +:+ rest
          ∧ (rest = EmptyString ∨ ∃ comment, rest = String space comment).
Proof.
  unfold normalize_pubkey. intros H.
  pose proof (join_split space raw) as Hj.
  destruct (split space raw) as [|p [|d ps]]; try done.
  simpl in H. assert (k = p +:+ " " +:+ d) as -> by (destruct ps; congruence).
  destruct ps as [|q qs].
  - exists EmptyString. split; [|by left]. rewrite <-Hj. simpl.
    by rewrite string_app_nil_r.
  - exists (String space (join (str space) (q :: qs))).
    split; [|by eauto]. rewrite <-Hj.
    change (join (str space) (p :: d :: q :: qs))
      with (p +:+ String space (d +:+ String space (join (str space) (q :: qs)))).
    by rewrite string_app_assoc.
Qed.

(** ** The requests a run sends, over any transport *)

Section Traces.

Context {Remote : Type} (fetch_url : Request → Remote → GitHubResponse * Remote).
Implicit Types w : World Remote.

(** X3. The listing never takes a second turn: with any fuel it ends
    after exactly one GET, with the same outcome as with fuel for one
    turn, and it never runs out of fuel. *)
Theorem get_all_keys_one_request fuel session w :
  get_all_keys fetch_url (S fuel) session w = get_all_keys fetch_url 1 session w
  ∧ sent (get_all_keys fetch_url (S fuel) session w).2
    = (sent w ++ [list_request session])%list
  ∧ (get_all_keys fetch_url (S fuel) session w).1 ≠ OutOfFuel.
Proof.
  rewrite !get_all_keys_turn. cbv zeta. split; [done|].
  case_bool_decide; [|by split].
  destruct (content _) as [ks|k|]; try by split.
  case_bool_decide; by split.
Qed.

(** X4. A refused listing ends the run at once: when the first GET is
    answered with a status outside 200 to 399, the listing, both
    reconcilers and [main] fail with the message that names the method,
    the URL and the reason, after that one request. *)
Theorem refused_listing_ends_run fuel session name pubkey force check_mode w :
  let rq := list_request session in
  let r := (fetch_url rq (remote w)).1 in
  let e := request_failure GET (API_BASE +:+ "/user/keys") (msg (info r)) in
  let w' := mkWorld (fetch_url rq (remote w)).2 (sent w ++ [rq]) (clock w) in
  ¬ (200 ≤ status (info r) < 400) →
  get_all_keys fetch_url (S fuel) session w = (Raise e, w')
  ∧ ensure_key_present fetch_url (S fuel) session name pubkey force check_mode w
    = (Raise e, w')
  ∧ ensure_key_absent fetch_url (S fuel) session name check_mode w
    = (Raise e, w')
  ∧ main fetch_url (S fuel)
         (mkParams (token session) name None absent force check_mode) w
    = (Raise e, w').
Proof.
  intros rq r e w' Hst.
  assert (get_all_keys fetch_url (S fuel) session w = (Raise e, w')) as Hl.
  { rewrite get_all_keys_turn. cbv zeta. by rewrite bool_decide_eq_false_2. }
  assert (ensure_key_absent fetch_url (S fuel) session name check_mode w
          = (Raise e, w')) as Ha.
  { unfold ensure_key_absent. by erewrite bind_raise. }
  repeat split; try done.
  - unfold ensure_key_present. by erewrite bind_raise.
  - unfold main; simpl. by destruct session.
Qed.

Lemma titled_all (name : string) (ks : list Key) :
  Forall (λ k, key_title k = name) (titled name ks).
Proof. apply Forall_forall. by intros k [? _]%list_elem_of_filter. Qed.

Lemma delete_each_trace session (ks : list Key) w :
  let out := delete_each fetch_url session ks w in
  ∃ n, (n ≤ length ks)%nat
       ∧ sent out.2 = (sent w ++ (delete_request session <$> take n ks))%list
       ∧ (out.1 = Return tt ∧ n = length ks
          ∨ (0 < n)%nat ∧ ∃ m, out.1 = Raise (FailJson m)).
Proof.
  revert w. induction ks as [|k ks IH]; intros w; cbv zeta.
  - exists O. simpl. rewrite app_nil_r. by auto.
  - change (delete_each fetch_url session (k :: ks))
      with (bind (request fetch_url session DELETE (key_endpoint k) None)
              (λ _, delete_each fetch_url session ks)).
    unfold bind at 1 2 3. rewrite request_unfold. cbv zeta.
    fold (delete_request session k). case_bool_decide.
    + match goal with |- context [delete_each _ _ _ ?w1] =>
        destruct (IH w1) as (n & Hn & Hs & Ho) end.
      exists (S n). split; [simpl; lia|]. split.
      * rewrite Hs. simpl. by rewrite <-app_assoc.
      * destruct Ho as [[Ho ->]|[Hpos Ho]]; [by left|right].
        split; [lia|done].
    + exists 1%nat. split; [simpl; lia|]. split; [by destruct ks|].
      right. split; [lia|]. by eexists.
Qed.

(** X5. [delete_keys] works through the keys in order, one DELETE each
    at the endpoint of the key, and stops at the first refused request.
    Outside check mode either every request is accepted in the world the
    earlier ones left, and the run returns after one request per key; or
    there is a first key whose request is refused, and the run ends with
    the message of that request in the world right after it, nothing
    more being sent. In check mode the run returns with the world as it
    was. *)
Theorem delete_keys_in_order session (ks : list Key) (check_mode : bool) w :
  let before (i : nat) : World Remote :=
    deliver_all fetch_url w (delete_request session <$> take i ks) in
  (∀ i, sent (before i)
        = (sent w ++ (delete_request session <$> take i ks))%list)
  ∧ if check_mode then
      delete_keys fetch_url session ks check_mode w = (Return tt, w)
    else
      ((∀ i k, ks !! i = Some k →
          accepted (answer fetch_url (before i) (delete_request session k)))
       ∧ delete_keys fetch_url session ks check_mode w
         = (Return tt, before (length ks)))
      ∨ ∃ i k,
          ks !! i = Some k
          ∧ (∀ j k', (j < i)%nat → ks !! j = Some k' →
               accepted (answer fetch_url (before j) (delete_request session k')))
          ∧ ¬ accepted (answer fetch_url (before i) (delete_request session k))
          ∧ delete_keys fetch_url session ks check_mode w
            = (Raise (request_failure DELETE (key_endpoint k)
                        (msg (info (answer fetch_url (before i)
                                      (delete_request session k))))),
               before (S i)).
Proof.
  cbv zeta. split; [intros i; apply sent_deliver_all|].
  destruct check_mode; [done|]. simpl delete_keys. rewrite firstn_all.
  apply delete_each_run.
Qed.

(** X6. The requests of [ensure_key_absent]: the GET of the listing,
    then one DELETE each for the first so many of the keys titled [name]
    in the answer to the GET, in their order; never a POST and never a
    DELETE for another key. In check mode nothing follows the GET, and a
    real run that returns has sent the DELETE of every such key, which
    are the keys it reports. *)
Theorem ensure_key_absent_requests fuel session name check_mode w :
  let out := ensure_key_absent fetch_url (S fuel) session name check_mode w in
  let matches := titled name (first_page fetch_url session w) in
  ∃ n, (n ≤ length matches)%nat
       ∧ sent out.2
         = (sent w ++ list_request session ::
              (delete_request session <$> take n matches))%list
       ∧ (if check_mode then n = O else True)
       ∧ match out.1 with
         | Return r =>
             deleted_keys r = matches
             ∧ (if check_mode then True else n = length matches)
         | _ => True
         end.
Proof.
  cbv zeta. unfold ensure_key_absent, bind.
  rewrite get_all_keys_turn. cbv zeta. unfold first_page, answer.
  set (w1 := mkWorld _ _ _).
  assert (∀ ms : list Key,
    ∃ n, (n ≤ length ms)%nat
         ∧ sent w1
           = (sent w ++ list_request session ::
                (delete_request session <$> take n ms))%list
         ∧ (if check_mode then n = O else True)
         ∧ True) as Hstop.
  { intros ms. exists O. simpl. repeat split; [lia|]. by destruct check_mode. }
  case_bool_decide; [|cbn [fst snd]; apply Hstop].
  destruct (content _) as [ks|k|]; try (cbn [fst snd]; apply Hstop).
  case_bool_decide; [cbn [fst snd]; apply Hstop|].
  destruct check_mode; simpl delete_keys.
  - exists O. unfold ret; simpl. repeat split; lia.
  - destruct (delete_each_trace session (titled name ks) w1)
      as (n & Hn & Hs & Ho). cbv zeta in Hs, Ho.
    exists n.
    destruct (delete_each _ _ _ w1) as [[[]|e|] w2]; simpl in *;
      rewrite Hs; subst w1; simpl; rewrite <-app_assoc;
      repeat split; try done.
    by destruct Ho as [[_ ->]|(_ & m & ?)].
Qed.

Lemma must_replace_force (matching : list Key) force pubkey :
  must_replace matching force pubkey = true → force = true.
Proof. destruct matching; [done|]. by destruct force. Qed.

Lemma ensure_key_present_trace fuel session name pubkey force check_mode w :
  let out :=
    ensure_key_present fetch_url (S fuel) session name pubkey force check_mode w in
  let matches := titled name (first_page fetch_url session w) in
  ∃ n posts,
    (n ≤ length matches)%nat
    ∧ sent out.2
      = (sent w ++ list_request session ::
           (delete_request session <$> take n matches) ++ posts)%list
    ∧ (posts = []
       ∨ posts = [create_request session name pubkey] ∧ n = length matches)
    ∧ (if check_mode then n = O ∧ posts = [] else True)
    ∧ (n = O ∨ force = true).
Proof.
  cbv zeta. unfold ensure_key_present. unfold bind at 1.
  rewrite get_all_keys_turn. cbv zeta. unfold first_page, answer.
  set (w1 := mkWorld _ _ _).
  assert (∀ ms : list Key,
    ∃ n posts,
      (n ≤ length ms)%nat
      ∧ sent w1
        = (sent w ++ list_request session ::
             (delete_request session <$> take n ms) ++ posts)%list
      ∧ (posts = []
         ∨ posts = [create_request session name pubkey] ∧ n = length ms)
      ∧ (if check_mode then n = O ∧ posts = [] else True)
      ∧ (n = O ∨ force = true)) as Hstop.
  { intros ms. exists O, []. simpl.
    repeat split; [lia|by left| |by left]. by destruct check_mode. }
  case_bool_decide; [|cbn [fst snd]; apply Hstop].
  destruct (content _) as [ks|k|]; try (cbn [fst snd]; apply Hstop).
  case_bool_decide; [cbn [fst snd]; apply Hstop|].
  unfold bind at 1.
  destruct (must_replace (titled name ks) force pubkey) eqn:Hmr.
  - apply must_replace_force in Hmr. destruct check_mode.
    + exists O, []. unfold bind, ret, utcnow; simpl.
      repeat split; [lia|by left|by left].
    + unfold bind at 1. simpl delete_keys.
      destruct (delete_each_trace session (titled name ks) w1)
        as (n & Hn & Hs & Ho). cbv zeta in Hs, Ho.
      destruct (delete_each _ _ _ w1) as [[[]|e|] w2] eqn:Hde; simpl in Hs, Ho.
      * destruct Ho as [[_ ->]|(_ & m & ?)]; [|done].
        unfold ret at 1. cbn [fst snd].
        exists (length (titled name ks)),
               [create_request session name pubkey].
        pose proof (create_key_trace fetch_url session name pubkey w2) as Hc.
        unfold bind.
        destruct (create_key _ _ _ _ _ w2) as [[c|e|] w3]; simpl in *;
          rewrite Hc, Hs; subst w1; simpl; rewrite <-!app_assoc;
          (repeat split; [lia|by right|by right]).
      * exists n, []. simpl. rewrite Hs. subst w1; simpl.
        rewrite app_nil_r, <-app_assoc.
        repeat split; [done|by left|by right].
      * exists n, []. simpl. rewrite Hs. subst w1; simpl.
        rewrite app_nil_r, <-app_assoc.
        repeat split; [done|by left|by right].
  - unfold ret at 1. cbn [fst snd].
    destruct (titled name ks) as [|k0 rest].
    + destruct check_mode.
      * exists O, []. unfold bind, ret, utcnow; simpl.
        repeat split; [lia|by left|by left].
      * exists O, [create_request session name pubkey].
        pose proof (create_key_trace fetch_url session name pubkey w1) as Hc.
        unfold bind.
        destruct (create_key _ _ _ _ _ w1) as [[c|e|] w3]; simpl in *;
          rewrite Hc; subst w1; simpl; rewrite <-!app_assoc;
          (repeat split; [lia|by right|by left]).
    + exists O, []. unfold bind, ret; simpl.
      repeat split; [lia|by left| |by left]. by destruct check_mode.
Qed.

(** X7. The requests of [ensure_key_present]: the GET of the listing,
    then one DELETE each for the first so many of the keys titled [name]
    in the answer to the GET, in their order, then at most one POST,
    which carries the requested title and key, comes last and is sent
    only after the DELETE of every such key. No DELETE is sent for
    another key, and in check mode nothing follows the GET. *)
Theorem ensure_key_present_requests fuel session name pubkey force check_mode w :
  let out :=
    ensure_key_present fetch_url (S fuel) session name pubkey force check_mode w in
  let matches := titled name (first_page fetch_url session w) in
  ∃ n posts,
    (n ≤ length matches)%nat
    ∧ sent out.2
      = (sent w ++ list_request session ::
           (delete_request session <$> take n matches) ++ posts)%list
    ∧ (posts = []
       ∨ posts = [create_request session name pubkey] ∧ n = length matches)
    ∧ (if check_mode then n = O ∧ posts = [] else True).
Proof.
  destruct (ensure_key_present_trace fuel session name pubkey force check_mode w)
    as (n & posts & Hn & Hs & Hp & Hc & _).
  by exists n, posts.
Qed.

(** X20. Without [force] nothing is ever deleted: over any transport
    and in either mode, a run of [ensure_key_present] with [force] unset
    sends no DELETE request. *)
Theorem without_force_no_delete fuel session name pubkey check_mode w :
  extends_by (λ rq, req_method rq ≠ DELETE) w
    (ensure_key_present fetch_url (S fuel) session name pubkey false
       check_mode w).2.
Proof.
  destruct (ensure_key_present_trace fuel session name pubkey false check_mode w)
    as (n & posts & _ & Hs & Hp & _ & [->|?]); [|done].
  eexists. split; [exact Hs|]. simpl.
  constructor; [done|]. by destruct Hp as [->|[-> _]]; repeat constructor.
Qed.

End Traces.

(** ** Reconciliation against the reference service *)

Section Reconciliation.

Import GitHub GitHubFacts.
Implicit Types w : World Store.

Variable session : GitHubSession.

Lemma ensure_key_absent_run fuel name check_mode w :
  well_formed (remote w) → single_page (remote w) →
  ensure_key_absent fetch_url (S fuel) session name check_mode w
  = (Return (absent_result name (keys (remote w))),
     mkWorld (if check_mode then remote w else without name (remote w))
             (sent w ++ list_request session ::
                (if check_mode then []
                 else delete_request session <$> titled name (keys (remote w))))
             (clock w)).
Proof.
  intros Hwf Hs. unfold ensure_key_absent. unfold bind at 1.
  rewrite get_all_keys_single_page by done. destruct check_mode.
  - unfold bind; simpl. by destruct w as [[ks pp stp] log clk].
  - unfold bind at 1.
    pose proof (delete_keys_titled session name
      (mkWorld (remote w) (sent w ++ [list_request session]) (clock w)) Hwf)
      as Hd.
    cbn [remote sent clock] in Hd. rewrite Hd.
    unfold ret; simpl. by rewrite <-app_assoc.
Qed.

(** X8. On an account whose keys do not fit one page both reconcilers
    end in the attribute error of [links] after the first GET: nothing is
    deleted or created, in either mode. *)
Theorem paged_listing_ends_run fuel name pubkey force check_mode w :
  ¬ single_page (remote w) →
  let w' := mkWorld (remote w) (sent w ++ [list_request session]) (clock w) in
  ensure_key_present fetch_url (S fuel) session name pubkey force check_mode w
    = (Raise NO_RE_INFO, w')
  ∧ ensure_key_absent fetch_url (S fuel) session name check_mode w
    = (Raise NO_RE_INFO, w').
Proof.
  intros Hs w'. pose proof (get_all_keys_paged session fuel w Hs) as Hl.
  split.
  - unfold ensure_key_present. by erewrite bind_raise.
  - unfold ensure_key_absent. by erewrite bind_raise.
Qed.

(** X9. Check mode predicts the run: on the same service the run in
    check mode reports the same [changed], [deleted_keys] and
    [matching_keys] as the real run, and a resulting key of the same
    title and material, while leaving the service as it was. *)
Theorem check_mode_predicts fuel name pubkey force w :
  well_formed (remote w) → single_page (remote w) →
  ∃ rc wc rr wr kc kr,
    ensure_key_present fetch_url (S fuel) session name pubkey force true w
      = (Return rc, wc)
    ∧ ensure_key_present fetch_url (S fuel) session name pubkey force false w
      = (Return rr, wr)
    ∧ changed rc = changed rr
    ∧ deleted_keys rc = deleted_keys rr
    ∧ matching_keys rc = matching_keys rr
    ∧ key rc = Some (JObject kc) ∧ key rr = Some (JObject kr)
    ∧ key_title kc = key_title kr ∧ key_key kc = key_key kr
    ∧ remote wc = remote w.
Proof.
  intros Hwf Hs.
  pose proof (ensure_key_present_run session fuel name pubkey force true w
                Hwf Hs) as Hc.
  pose proof (ensure_key_present_run session fuel name pubkey force false w
                Hwf Hs) as Hr.
  cbv zeta in Hc, Hr.
  destruct (must_replace (titled name (keys (remote w))) force pubkey).
  - eexists _, _, _, _, _, _. split; [exact Hc|]. split; [exact Hr|].
    by repeat split.
  - destruct (titled name (keys (remote w))) as [|k0 rest];
      (eexists _, _, _, _, _, _; split; [exact Hc|]; split; [exact Hr|];
       by repeat split).
Qed.

(** X10. On a service with distinct identifiers that holds fewer keys
    than fit one page, a second run changes nothing, whichever keys the
    service held before the first and with or without [force]: after a
    real run of [ensure_key_present], the same call again reports no
    change and no deleted key, returns the same key, and sends the GET of
    the listing only. *)
Theorem second_run_changes_nothing fuel1 fuel2 name pubkey force w :
  well_formed (remote w) →
  (length (keys (remote w)) < per_page (remote w))%nat →
  ∃ r1 w1 r2 w2,
    ensure_key_present fetch_url (S fuel1) session name pubkey force false w
      = (Return r1, w1)
    ∧ ensure_key_present fetch_url (S fuel2) session name pubkey force false w1
      = (Return r2, w2)
    ∧ changed r2 = false ∧ deleted_keys r2 = []
    ∧ key r2 = key r1
    ∧ remote w2 = remote w1
    ∧ sent w2 = (sent w1 ++ [list_request session])%list.
Proof.
  intros Hwf Hlen.
  assert (single_page (remote w)) as Hs by (unfold single_page; lia).
  pose proof (ensure_key_present_run session fuel1 name pubkey force false w
                Hwf Hs) as Hrun. cbv zeta in Hrun.
  destruct (must_replace (titled name (keys (remote w))) force pubkey) eqn:Hmr.
  - edestruct (present_again session fuel2 name pubkey force
                 (without name (remote w))) as [Ht Hrun2].
    + by apply well_formed_without.
    + simpl. pose proof (length_filter (λ k, key_title k ≠ name)
                           (keys (remote w))). lia.
    + simpl. unfold titled. rewrite list_filter_filter.
      apply filter_none. by intros k _ [? ?].
    + eexists _, _, _, _. split; [exact Hrun|]. split; [exact Hrun2|].
      by repeat split.
  - destruct (titled name (keys (remote w))) as [|k0 rest] eqn:Hm.
    + edestruct (present_again session fuel2 name pubkey force (remote w))
        as [Ht Hrun2]; [done..|].
      eexists _, _, _, _. split; [exact Hrun|]. split; [exact Hrun2|].
      by repeat split.
    + pose proof (ensure_key_present_run session fuel2 name pubkey force false
        (mkWorld (remote w) (sent w ++ [list_request session]) (clock w))
        Hwf Hs) as Hrun2.
      cbv zeta in Hrun2. cbn [remote sent clock] in Hrun2.
      rewrite Hm, Hmr in Hrun2.
      eexists _, _, _, _. split; [exact Hrun|]. split; [exact Hrun2|].
      by repeat split.
Qed.

(** X11. [ensure_key_absent] twice, on a service with distinct
    identifiers whose listing fits one page: after a real run no key of
    the title is left, and the same call again reports no change and no
    deleted key, sends the GET only and leaves the service as it is. *)
Theorem absent_twice fuel1 fuel2 name w :
  well_formed (remote w) → single_page (remote w) →
  ∃ r1 w1 r2 w2,
    ensure_key_absent fetch_url (S fuel1) session name false w = (Return r1, w1)
    ∧ ensure_key_absent fetch_url (S fuel2) session name false w1
      = (Return r2, w2)
    ∧ titled name (keys (remote w1)) = []
    ∧ changed r2 = false ∧ deleted_keys r2 = []
    ∧ keys (remote w2) = keys (remote w1)
    ∧ sent w2 = (sent w1 ++ [list_request session])%list.
Proof.
  intros Hwf Hs.
  pose proof (ensure_key_absent_run fuel1 name false w Hwf Hs) as Hrun.
  assert (titled name (keys (without name (remote w))) = []) as Hno.
  { simpl. unfold titled. rewrite list_filter_filter.
    apply filter_none. by intros k _ [? ?]. }
  match type of Hrun with _ = (_, ?w1) =>
    pose proof (ensure_key_absent_run fuel2 name false w1) as Hrun2 end.
  cbn [remote sent clock] in Hrun2.
  specialize (Hrun2 (well_formed_without _ name Hwf)).
  assert (single_page (without name (remote w))) as Hs'.
  { unfold single_page in *; simpl.
    pose proof (length_filter (λ k, key_title k ≠ name) (keys (remote w))). lia. }
  specialize (Hrun2 Hs').
  eexists _, _, _, _. split; [exact Hrun|]. split; [exact Hrun2|].
  cbn [remote sent clock]. unfold absent_result. rewrite Hno. simpl.
  repeat split. apply filter_all. intros k Hk.
  apply list_elem_of_filter in Hk as [Hk _]. done.
Qed.

Lemma paged_listing_keeps_remote fuel name pubkey force check_mode w :
  ¬ single_page (remote w) →
  remote (ensure_key_present fetch_url (S fuel) session name pubkey force
            check_mode w).2 = remote w
  ∧ remote (ensure_key_absent fetch_url (S fuel) session name check_mode w).2
    = remote w.
Proof.
  intros Hs. pose proof (get_all_keys_paged session fuel w Hs) as Hl. split.
  - unfold ensure_key_present. by rewrite (bind_raise _ _ _ _ _ Hl).
  - unfold ensure_key_absent. by rewrite (bind_raise _ _ _ _ _ Hl).
Qed.

(** The world a run of [ensure_key_present] leaves holds the old keys of
    other titles and, of the title, the old keys or one new key. *)
Lemma ensure_key_present_keys fuel name pubkey force check_mode w :
  well_formed (remote w) →
  let out :=
    ensure_key_present fetch_url (S fuel) session name pubkey force check_mode w in
  keys (remote out.2) = keys (remote w)
  ∨ ∃ st, (st = remote w ∨ st = without name (remote w))
          ∧ titled name (keys st) = []
          ∧ single_page (remote w)
          ∧ remote out.2 = with_keys st (keys st ++ [created st name pubkey]).
Proof.
  intros Hwf. cbv zeta.
  destruct (le_dec (length (keys (remote w))) (per_page (remote w))) as [Hs|Hs].
  - pose proof (ensure_key_present_run session fuel name pubkey force
                  check_mode w Hwf Hs) as Hrun. cbv zeta in Hrun.
    rewrite Hrun.
    destruct (must_replace _ _ _); [destruct check_mode; [by left|]|].
    + right. exists (without name (remote w)).
      split; [by right|]. split; [|done].
      simpl. unfold titled. rewrite list_filter_filter.
      apply filter_none. by intros k _ [? ?].
    + destruct (titled name (keys (remote w))) eqn:Hm; [|by left].
      destruct check_mode; [by left|]. right. exists (remote w). by auto.
  - left. by rewrite (proj1 (paged_listing_keeps_remote fuel name pubkey force
                               check_mode w Hs)).
Qed.

(** X12. [ensure_key_present] never touches a key of another title: such
    a key is held by the service after the run exactly if it was held
    before, in either mode and with or without [force]. *)
Theorem present_keeps_other_titles fuel name pubkey force check_mode w k :
  well_formed (remote w) → key_title k ≠ name →
  k ∈ keys (remote (ensure_key_present fetch_url (S fuel) session name pubkey
                      force check_mode w).2)
  ↔ k ∈ keys (remote w).
Proof.
  intros Hwf Hk.
  destruct (ensure_key_present_keys fuel name pubkey force check_mode w Hwf)
    as [->|(st & Hst & _ & _ & ->)]; [done|].
  simpl. rewrite elem_of_app, list_elem_of_singleton.
  assert (k ≠ created st name pubkey) as Hne by (by intros ->).
  destruct Hst as [->| ->]; simpl.
  - tauto.
  - rewrite list_elem_of_filter. tauto.
Qed.

(** X13. Keys of the title are never compared beyond the first: when
    the first listed key of the title already has the requested material,
    the run reports no change and returns that key, and every other key
    of the title stays, whatever its material and even under [force]. *)
Theorem later_duplicates_are_kept fuel name pubkey force check_mode w K rest :
  well_formed (remote w) → single_page (remote w) →
  titled name (keys (remote w)) = K :: rest → key_key K = pubkey →
  ensure_key_present fetch_url (S fuel) session name pubkey force check_mode w
  = (Return (mkResult false [] (Some (K :: rest)) (Some (JObject K))),
     mkWorld (remote w) (sent w ++ [list_request session]) (clock w)).
Proof.
  intros Hwf Hs Hm HK.
  rewrite ensure_key_present_run by done. cbv zeta. rewrite Hm. simpl.
  rewrite bool_decide_eq_true_2 by done. by rewrite andb_false_r.
Qed.

(** X14. Both reconcilers keep the identifiers of the service distinct,
    in either mode and whether or not the listing fits one page. *)
Theorem reconcilers_keep_well_formed fuel name pubkey force check_mode w :
  well_formed (remote w) →
  well_formed (remote (ensure_key_present fetch_url (S fuel) session name
                         pubkey force check_mode w).2)
  ∧ well_formed (remote (ensure_key_absent fetch_url (S fuel) session name
                           check_mode w).2).
Proof.
  intros Hwf. split.
  - destruct (ensure_key_present_keys fuel name pubkey force check_mode w Hwf)
      as [E|(st & Hst & _ & _ & ->)].
    + unfold well_formed. by rewrite E.
    + apply well_formed_created.
      destruct Hst as [->| ->]; [done|by apply well_formed_without].
  - destruct (le_dec (length (keys (remote w))) (per_page (remote w))) as [Hs|Hs].
    + rewrite ensure_key_absent_run by done.
      destruct check_mode; [done|by apply well_formed_without].
    + by rewrite (proj2 (paged_listing_keeps_remote fuel name EmptyString false
                           check_mode w Hs)).
Qed.

(** X15. [ensure_key_absent] undoes [ensure_key_present], on a service
    with distinct identifiers that holds fewer keys than fit one page:
    after a real run of the one and then of the other, the service holds
    exactly the keys of other titles it held at the start, and the second
    run reports a change with the key of the first run among the deleted
    keys. *)
Theorem absent_undoes_present fuel1 fuel2 name pubkey force w :
  well_formed (remote w) →
  (length (keys (remote w)) < per_page (remote w))%nat →
  ∃ r1 w1 r2 w2 k,
    ensure_key_present fetch_url (S fuel1) session name pubkey force false w
      = (Return r1, w1)
    ∧ ensure_key_absent fetch_url (S fuel2) session name false w1
      = (Return r2, w2)
    ∧ key r1 = Some (JObject k) ∧ k ∈ deleted_keys r2
    ∧ changed r2 = true
    ∧ keys (remote w2) = filter (λ k', key_title k' ≠ name) (keys (remote w)).
Proof.
  intros Hwf Hlen.
  assert (single_page (remote w)) as Hs by (unfold single_page; lia).
  pose proof (ensure_key_present_run session fuel1 name pubkey force false w
                Hwf Hs) as Hrun. cbv zeta in Hrun.
  assert (∀ st, st = remote w ∨ st = without name (remote w) →
    titled name (keys st) = [] →
    ∀ log clk,
    let k := created st name pubkey in
    let w1 := mkWorld (with_keys st (keys st ++ [k])) log clk in
    ∃ r2 w2, ensure_key_absent fetch_url (S fuel2) session name false w1
               = (Return r2, w2)
             ∧ k ∈ deleted_keys r2 ∧ changed r2 = true
             ∧ keys (remote w2)
               = filter (λ k', key_title k' ≠ name) (keys (remote w)))
    as Hmade.
  { intros st Hst Hno log clk k w1.
    assert (well_formed st) as Hwf'
      by (destruct Hst as [->| ->]; [done|by apply well_formed_without]).
    assert (length (keys st) ≤ length (keys (remote w)))%nat as Hle.
    { destruct Hst as [->| ->]; [done|]. apply length_filter. }
    assert (per_page st = per_page (remote w)) as Hpp
      by (by destruct Hst as [->| ->]).
    assert (titled name (keys st ++ [k]) = [k]) as Ht.
    { unfold titled in *. rewrite filter_app, Hno. by rewrite filter_cons_True. }
    eexists _, _. split.
    - apply ensure_key_absent_run.
      + by apply well_formed_created.
      + unfold single_page; simpl. rewrite length_app; simpl. lia.
    - unfold absent_result. subst w1.
      cbn [remote keys with_keys deleted_keys changed].
      rewrite Ht. split; [by apply list_elem_of_singleton|]. split; [done|].
      simpl. rewrite filter_app, filter_cons_False, app_nil_r
        by (by intros ?).
      destruct Hst as [->| ->]; simpl; [done|].
      rewrite list_filter_filter. apply list_filter_iff. tauto. }
  destruct (must_replace (titled name (keys (remote w))) force pubkey) eqn:Hmr.
  - edestruct (Hmade (without name (remote w))) as (r2 & w2 & Hrun2 & ?);
      [by right| |].
    { simpl. unfold titled. rewrite list_filter_filter.
      apply filter_none. by intros k _ [? ?]. }
    eexists _, _, r2, w2, _. split; [exact Hrun|]. split; [exact Hrun2|].
    by split.
  - destruct (titled name (keys (remote w))) as [|k0 rest] eqn:Hm.
    + edestruct (Hmade (remote w)) as (r2 & w2 & Hrun2 & ?); [by left|done|].
      eexists _, _, r2, w2, _. split; [exact Hrun|]. split; [exact Hrun2|].
      by split.
    + eexists _, _, _, _, _. split; [exact Hrun|]. split.
      { by apply ensure_key_absent_run. }
      cbn [remote sent clock key]. unfold absent_result.
      cbn [deleted_keys changed]. rewrite Hm.
      split; [done|]. split; [by left|]. by split.
Qed.

(** X16. From the parameters to the service: for a key given as
    protocol, data and comment separated by single spaces, [main] with
    [state=present] on a service without a key of the title sends the GET
    and one POST carrying the title and the key without its comment, and
    reports a change, no deleted and no matching key and the key the
    service created. *)
Theorem main_creates_missing_key fuel tok name proto data comment force w :
  occurs space proto = O → occurs space data = O →
  well_formed (remote w) → single_page (remote w) →
  titled name (keys (remote w)) = [] →
  let pubkey := proto +:+ " " +:+ data in
  let made := created (remote w) name pubkey in
  main fetch_url (S fuel)
       (mkParams tok name (Some (pubkey +:+ " " +:+ comment)) present force false) w
  = (Return (mkResult true [] (Some []) (Some (JObject made))),
     mkWorld (with_keys (remote w) (keys (remote w) ++ [made]))
             (sent w ++ [list_request (mkGitHubSession tok);
                         create_request (mkGitHubSession tok) name pubkey])
             (clock w)).
Proof.
  intros Hp Hd Hwf Hs Hno pubkey made. unfold main; simpl.
  subst made pubkey.
  assert (truthy ((proto +:+ " " +:+ data) +:+ " " +:+ comment) = true) as ->
    by (by destruct proto).
  rewrite string_app_assoc.
  change ((" " +:+ data) +:+ " " +:+ comment)
    with (" " +:+ data +:+ " " +:+ comment).
  rewrite normalize_pubkey_comment by done.
  rewrite (ensure_key_present_run (mkGitHubSession tok)) by done.
  cbv zeta. by rewrite Hno.
Qed.

(** X19. What a real run returns is what the service holds: the
    resulting key is a key of the service after the run, it has the
    requested title and is the first of that title, and under [force] it
    has the requested material. *)
Theorem present_returns_stored_key fuel name pubkey force w :
  well_formed (remote w) → single_page (remote w) →
  ∃ r w' k,
    ensure_key_present fetch_url (S fuel) session name pubkey force false w
      = (Return r, w')
    ∧ key r = Some (JObject k)
    ∧ head (titled name (keys (remote w'))) = Some k
    ∧ k ∈ keys (remote w') ∧ key_title k = name
    ∧ (if force then key_key k = pubkey else True).
Proof.
  intros Hwf Hs.
  pose proof (ensure_key_present_run session fuel name pubkey force false w
                Hwf Hs) as Hrun. cbv zeta in Hrun.
  assert (∀ st, titled name (keys st) = [] →
    let k := created st name pubkey in
    head (titled name (keys st ++ [k])) = Some k
    ∧ k ∈ (keys st ++ [k])%list) as Hmade.
  { intros st Hno k. unfold titled in *.
    rewrite filter_app, Hno, filter_cons_True by done.
    split; [done|]. apply elem_of_app. right. by left. }
  destruct (must_replace (titled name (keys (remote w))) force pubkey) eqn:Hmr.
  - edestruct (Hmade (without name (remote w))) as [Hh Hin].
    { simpl. unfold titled. rewrite list_filter_filter.
      apply filter_none. by intros k _ [? ?]. }
    eexists _, _, _. split; [exact Hrun|]. simpl.
    repeat split; try done. by destruct force.
  - destruct (titled name (keys (remote w))) as [|k0 rest] eqn:Hm.
    + edestruct (Hmade (remote w)) as [Hh Hin]; [done|].
      eexists _, _, _. split; [exact Hrun|]. simpl.
      repeat split; try done. by destruct force.
    + assert (k0 ∈ titled name (keys (remote w))) as Hk0
        by (rewrite Hm; by left).
      apply list_elem_of_filter in Hk0 as [Ht Hk0].
      eexists _, _, _. split; [exact Hrun|]. simpl. rewrite Hm.
      repeat split; try done.
      destruct force; [|done]. simpl in Hmr.
      apply negb_false_iff in Hmr. by apply bool_decide_eq_true in Hmr.
Qed.

End Reconciliation.

(** ** The Link pattern and the timestamp *)

Lemma string_length_app (a b : string) :
  String.length (a +:+ b) = (String.length a + String.length b)%nat.
Proof.
  induction a as [|x a IH]; [done|].
  change (S (String.length (a +:+ b)) = S (String.length a + String.length b)).
  by rewrite IH.
Qed.

Lemma span_not_stop (stop : ascii) (a b : string) :
  occurs stop a = O → span_not stop (a +:+ String stop b) = (a, String stop b).
Proof.
  induction a as [|x a IH].
  - intros _. simpl. by rewrite Ascii.eqb_refl.
  - change (String x a +:+ String stop b) with (String x (a +:+ String stop b)).
    simpl. destruct (Ascii.eqb x stop); [done|]. intros H. by rewrite IH.
Qed.

Lemma strip_prefix_app (p s : string) : strip_prefix p (p +:+ s) = Some s.
Proof.
  induction p as [|x p IH]; [by destruct s|].
  change (String x p +:+ s) with (String x (p +:+ s)). simpl.
  by rewrite Ascii.eqb_refl.
Qed.

Lemma findall_from_skip (s rest : string) :
  findall_from (String.length s) (s +:+ rest) = findall_from O rest.
Proof.
  induction s as [|x s IH]; [done|].
  change (String x s +:+ rest) with (String x (s +:+ rest)). by simpl.
Qed.

Lemma match_link_entry (u r rest : string) :
  truthy u = true → occurs ">" u = O →
  truthy r = true → occurs dquote r = O →
  match_link (GitHub.link_entry u r +:+ rest)
  = Some (u, r, String.length (GitHub.link_entry u r)).
Proof.
  intros Hu Hub Hr Hrq. unfold GitHub.link_entry.
  pose (T := "; rel=" +:+ str dquote +:+ r +:+ String dquote rest).
  assert (("<" +:+ u +:+ ">; rel=" +:+ str dquote +:+ r +:+ str dquote) +:+ rest
          = "<" +:+ u +:+ String ">" T) as E.
  { rewrite !string_app_assoc. reflexivity. }
  unfold match_link. rewrite E, strip_prefix_app. cbn [mbind option_bind].
  rewrite (span_not_stop ">" u T Hub), Hu. subst T.
  change (String ">" ("; rel=" +:+ str dquote +:+ r +:+ String dquote rest))
    with ((">; rel=" +:+ str dquote) +:+ r +:+ String dquote rest).
  rewrite strip_prefix_app. cbn [mbind option_bind].
  rewrite (span_not_stop dquote r rest Hrq), Hr.
  change (String dquote rest) with (str dquote +:+ rest).
  rewrite strip_prefix_app. cbn [mbind option_bind]. do 2 f_equal.
  rewrite !string_length_app. cbn [String.length str]. lia.
Qed.

Lemma findall_entry (u r rest : string) :
  truthy u = true → occurs ">" u = O →
  truthy r = true → occurs dquote r = O →
  findall_from O (GitHub.link_entry u r +:+ rest)
  = (u, r) :: findall_from O rest.
Proof.
  intros Hu Hub Hr Hrq.
  pose proof (match_link_entry u r rest Hu Hub Hr Hrq) as Hm.
  pose proof (findall_from_skip
                (u +:+ ">; rel=" +:+ str dquote +:+ r +:+ str dquote) rest)
    as Hs.
  change (GitHub.link_entry u r)
    with (String "<" (u +:+ ">; rel=" +:+ str dquote +:+ r +:+ str dquote))
    in Hm |- *.
  change (String "<" (u +:+ ">; rel=" +:+ str dquote +:+ r +:+ str dquote)
          +:+ rest)
    with (String "<" ((u +:+ ">; rel=" +:+ str dquote +:+ r +:+ str dquote)
                      +:+ rest)) in Hm |- *.
  cbn [findall_from]. rewrite Hm. cbn [String.length Nat.pred].
  by rewrite Hs.
Qed.

(** X17. The pattern of [links] reads a Link header back: for entries
    made of a non-empty url without closing bracket and a non-empty
    relation without quote, written as the service writes them and
    joined by a comma and a space, [findall] gives the pairs of url and
    relation, in order. *)
Theorem findall_reads_entries (entries : list (string * string)) :
  Forall (λ e, truthy e.1 = true ∧ occurs ">" e.1 = O
               ∧ truthy e.2 = true ∧ occurs dquote e.2 = O) entries →
  findall (join ", " ((λ e, GitHub.link_entry e.1 e.2) <$> entries)) = entries.
Proof.
  unfold findall. induction entries as [|[u r] l IH]; [done|].
  intros [(Hu & Hub & Hr & Hrq) Hl]%Forall_cons. simpl in Hu, Hub, Hr, Hrq.
  specialize (IH Hl). destruct l as [|e l].
  - change (findall_from O (GitHub.link_entry u r) = [(u, r)]).
    rewrite <-(string_app_nil_r (GitHub.link_entry u r)).
    by rewrite findall_entry.
  - rewrite !fmap_cons in *.
    change (join ", " (GitHub.link_entry (u, r).1 (u, r).2 ::
                       GitHub.link_entry e.1 e.2 ::
                       ((λ e, GitHub.link_entry e.1 e.2) <$> l)))
      with (GitHub.link_entry u r +:+
            String "," (String " "
              (join ", " (GitHub.link_entry e.1 e.2 ::
                          ((λ e, GitHub.link_entry e.1 e.2) <$> l))))).
    rewrite findall_entry by done. f_equal. exact IH.
Qed.

(** X18. The timestamp of the made-up key reads back as the clock: for
    a four-digit year and two-digit fields, the digits at the places of
    year, month, day, hour, minute and second in [created_at] are the
    numbers [utcnow] gave. *)
Theorem strftime_reads_back (name pubkey : string) (now : datetime) :
  (year now < 10000)%N → (month now < 100)%N → (day now < 100)%N →
  (hour now < 100)%N → (minute now < 100)%N → (second now < 100)%N →
  let s := key_created_at (synthetic_key name pubkey now) in
  digits_value (substring 0 4 s) = year now
  ∧ digits_value (substring 5 2 s) = month now
  ∧ digits_value (substring 8 2 s) = day now
  ∧ digits_value (substring 11 2 s) = hour now
  ∧ digits_value (substring 14 2 s) = minute now
  ∧ digits_value (substring 17 2 s) = second now.
Proof.
  intros Hy Hm Hd Hh Hi Hs. cbv zeta.
  unfold synthetic_key, key_created_at, strftime, fmt4, fmt2. simpl substring.
  repeat split.
  - by apply fmt4_value.
  - by apply fmt2_value.
  - by apply fmt2_value.
  - by apply fmt2_value.
  - by apply fmt2_value.
  - by apply fmt2_value.
Qed.

(** ** The endpoint of [delete_keys] *)

(** X21. The endpoint of a DELETE names one identifier: two keys are
    deleted through the same request exactly when their identifiers are
    equal. *)
Theorem delete_request_names_id session (k1 k2 : Key) :
  delete_request session k1 = delete_request session k2 ↔ key_id k1 = key_id k2.
Proof.
  unfold delete_request. split.
  - intros H. apply key_endpoint_inj. congruence.
  - intros H. apply key_endpoint_inj in H. by rewrite H.
Qed.

(** ** Instances of the further statements *)

Lemma normalize_pubkey_idempotent_witness :
  normalize_pubkey "ssh-rsa AAAA me@host" = Some "ssh-rsa AAAA"
  ∧ normalize_pubkey "ssh-rsa AAAA" = Some "ssh-rsa AAAA"
  ∧ occurs space "ssh-rsa AAAA" = 1%nat.
Proof.
  assert (normalize_pubkey "ssh-rsa AAAA me@host" = Some "ssh-rsa AAAA") as H
    by reflexivity.
  split; [done|].
  exact (normalize_pubkey_idempotent "ssh-rsa AAAA me@host" "ssh-rsa AAAA" H).
Defined.

Lemma normalize_pubkey_prefix_witness :
  normalize_pubkey "ssh-rsa AAAA me@host" = Some "ssh-rsa AAAA"
  ∧ ∃ rest, "ssh-rsa AAAA me@host" = "ssh-rsa AAAA" +:+ rest
            ∧ (rest = EmptyString ∨ ∃ comment, rest = String space comment).
Proof.
  assert (normalize_pubkey "ssh-rsa AAAA me@host" = Some "ssh-rsa AAAA") as H
    by reflexivity.
  split; [done|].
  exact (normalize_pubkey_prefix "ssh-rsa AAAA me@host" "ssh-rsa AAAA" H).
Defined.

Lemma refused_listing_ends_run_witness :
  let w := mkWorld tt [] (mkDatetime 2016 7 4 9 5 59) in
  ¬ (200 ≤ status (info (offline (list_request sample_session) (remote w)).1)
     < 400)
  ∧ ensure_key_present offline 1 sample_session "deploy-key" "ssh-rsa AAAA"
      true false w
    = (Raise (request_failure GET (API_BASE +:+ "/user/keys")
                "Request failed: <urlopen error timed out>"),
       mkWorld tt [list_request sample_session] (clock w)).
Proof.
  intros w.
  assert (¬ (200 ≤ status (info (offline (list_request sample_session)
                                   (remote w)).1) < 400)) as H
    by (simpl; lia).
  split; [done|].
  exact (proj1 (proj2 (refused_listing_ends_run offline 0 sample_session
                         "deploy-key" "ssh-rsa AAAA" true false w H))).
Defined.

Lemma sample_paged :
  ¬ GitHub.single_page
      (GitHub.mkStore [deploy_key; backup_key; deploy_twin] 1 sample_stamp).
Proof. unfold GitHub.single_page. simpl. lia. Defined.

Lemma sample_single_page :
  GitHub.single_page
    (GitHub.mkStore [deploy_key; backup_key; deploy_twin] 30 sample_stamp).
Proof. unfold GitHub.single_page. simpl. lia. Defined.

Lemma sample_room :
  (length (GitHub.keys (remote (sample_world [deploy_key; backup_key; deploy_twin] 30)))
   < GitHub.per_page (remote (sample_world [deploy_key; backup_key; deploy_twin] 30)))%nat.
Proof. simpl. lia. Defined.

Lemma paged_listing_ends_run_witness :
  let w := sample_world [deploy_key; backup_key; deploy_twin] 1 in
  ¬ GitHub.single_page (remote w)
  ∧ ensure_key_absent GitHub.fetch_url 1 sample_session "deploy-key" false w
    = (Raise NO_RE_INFO,
       mkWorld (remote w) [list_request sample_session] (clock w)).
Proof.
  intros w. split; [exact sample_paged|].
  exact (proj2 (paged_listing_ends_run sample_session 0 "deploy-key"
                  "ssh-rsa AAAA" true false w sample_paged)).
Defined.

Lemma check_mode_predicts_witness :
  let w := sample_world [deploy_key; backup_key; deploy_twin] 30 in
  GitHub.well_formed (remote w) ∧ GitHub.single_page (remote w)
  ∧ ∃ rc wc rr wr kc kr,
      ensure_key_present GitHub.fetch_url 1 sample_session "deploy-key"
        "ssh-rsa BBBB" true true w = (Return rc, wc)
      ∧ ensure_key_present GitHub.fetch_url 1 sample_session "deploy-key"
          "ssh-rsa BBBB" true false w = (Return rr, wr)
      ∧ changed rc = changed rr
      ∧ deleted_keys rc = deleted_keys rr
      ∧ matching_keys rc = matching_keys rr
      ∧ key rc = Some (JObject kc) ∧ key rr = Some (JObject kr)
      ∧ key_title kc = key_title kr ∧ key_key kc = key_key kr
      ∧ remote wc = remote w.
Proof.
  intros w. split; [exact sample_well_formed|]. split; [exact sample_single_page|].
  exact (check_mode_predicts sample_session 0 "deploy-key" "ssh-rsa BBBB" true w
           sample_well_formed sample_single_page).
Defined.

Lemma second_run_changes_nothing_witness :
  let w := sample_world [deploy_key; backup_key; deploy_twin] 30 in
  GitHub.well_formed (remote w)
  ∧ ∃ r1 w1 r2 w2,
      ensure_key_present GitHub.fetch_url 1 sample_session "deploy-key"
        "ssh-rsa BBBB" false false w = (Return r1, w1)
      ∧ ensure_key_present GitHub.fetch_url 1 sample_session "deploy-key"
          "ssh-rsa BBBB" false false w1 = (Return r2, w2)
      ∧ changed r2 = false ∧ deleted_keys r2 = []
      ∧ key r2 = key r1
      ∧ remote w2 = remote w1
      ∧ sent w2 = (sent w1 ++ [list_request sample_session])%list.
Proof.
  intros w. split; [exact sample_well_formed|].
  exact (second_run_changes_nothing sample_session 0 0 "deploy-key"
           "ssh-rsa BBBB" false w sample_well_formed sample_room).
Defined.

Lemma absent_twice_witness :
  let w := sample_world [deploy_key; backup_key; deploy_twin] 30 in
  GitHub.well_formed (remote w) ∧ GitHub.single_page (remote w)
  ∧ ∃ r1 w1 r2 w2,
      ensure_key_absent GitHub.fetch_url 1 sample_session "deploy-key" false w
        = (Return r1, w1)
      ∧ ensure_key_absent GitHub.fetch_url 1 sample_session "deploy-key" false w1
        = (Return r2, w2)
      ∧ titled "deploy-key" (GitHub.keys (remote w1)) = []
      ∧ changed r2 = false ∧ deleted_keys r2 = []
      ∧ GitHub.keys (remote w2) = GitHub.keys (remote w1)
      ∧ sent w2 = (sent w1 ++ [list_request sample_session])%list.
Proof.
  intros w. split; [exact sample_well_formed|]. split; [exact sample_single_page|].
  exact (absent_twice sample_session 0 0 "deploy-key" w sample_well_formed
           sample_single_page).
Defined.

Lemma present_keeps_other_titles_witness :
  let w := sample_world [deploy_key; backup_key; deploy_twin] 30 in
  GitHub.well_formed (remote w) ∧ key_title backup_key ≠ "deploy-key"
  ∧ (backup_key
       ∈ GitHub.keys (remote (ensure_key_present GitHub.fetch_url 1
                                sample_session "deploy-key" "ssh-rsa BBBB" true
                                false w).2)
     ↔ backup_key ∈ GitHub.keys (remote w)).
Proof.
  intros w.
  assert (key_title backup_key ≠ "deploy-key") as H by discriminate.
  split; [exact sample_well_formed|]. split; [done|].
  exact (present_keeps_other_titles sample_session 0 "deploy-key" "ssh-rsa BBBB"
           true false w backup_key sample_well_formed H).
Defined.

Lemma later_duplicates_are_kept_witness :
  let w := sample_world [deploy_key; backup_key; deploy_twin] 30 in
  GitHub.well_formed (remote w) ∧ GitHub.single_page (remote w)
  ∧ titled "deploy-key" (GitHub.keys (remote w)) = [deploy_key; deploy_twin]
  ∧ key_key deploy_key = "ssh-rsa AAAA"
  ∧ ensure_key_present GitHub.fetch_url 1 sample_session "deploy-key"
      "ssh-rsa AAAA" true false w
    = (Return (mkResult false [] (Some [deploy_key; deploy_twin])
                 (Some (JObject deploy_key))),
       mkWorld (remote w) (sent w ++ [list_request sample_session]) (clock w)).
Proof.
  intros w.
  assert (titled "deploy-key" (GitHub.keys (remote w))
          = [deploy_key; deploy_twin]) as Ht by reflexivity.
  assert (key_key deploy_key = "ssh-rsa AAAA") as Hk by reflexivity.
  split; [exact sample_well_formed|]. split; [exact sample_single_page|].
  split; [done|]. split; [done|].
  exact (later_duplicates_are_kept sample_session 0 "deploy-key" "ssh-rsa AAAA"
           true false w deploy_key [deploy_twin] sample_well_formed
           sample_single_page Ht Hk).
Defined.

Lemma reconcilers_keep_well_formed_witness :
  let w := sample_world [deploy_key; backup_key; deploy_twin] 30 in
  GitHub.well_formed (remote w)
  ∧ GitHub.well_formed
      (remote (ensure_key_present GitHub.fetch_url 1 sample_session "deploy-key"
                 "ssh-rsa BBBB" true false w).2).
Proof.
  intros w. split; [exact sample_well_formed|].
  exact (proj1 (reconcilers_keep_well_formed sample_session 0 "deploy-key"
                  "ssh-rsa BBBB" true false w sample_well_formed)).
Defined.

Lemma absent_undoes_present_witness :
  let w := sample_world [deploy_key; backup_key; deploy_twin] 30 in
  GitHub.well_formed (remote w)
  ∧ ∃ r1 w1 r2 w2 k,
      ensure_key_present GitHub.fetch_url 1 sample_session "deploy-key"
        "ssh-rsa BBBB" true false w = (Return r1, w1)
      ∧ ensure_key_absent GitHub.fetch_url 1 sample_session "deploy-key" false w1
        = (Return r2, w2)
      ∧ key r1 = Some (JObject k) ∧ k ∈ deleted_keys r2
      ∧ changed r2 = true
      ∧ GitHub.keys (remote w2)
        = filter (λ k', key_title k' ≠ "deploy-key") (GitHub.keys (remote w)).
Proof.
  intros w. split; [exact sample_well_formed|].
  exact (absent_undoes_present sample_session 0 0 "deploy-key" "ssh-rsa BBBB"
           true w sample_well_formed sample_room).
Defined.

Lemma sample_well_formed_backup :
  GitHub.well_formed (GitHub.mkStore [backup_key] 30 sample_stamp).
Proof.
  unfold GitHub.well_formed. apply (bool_decide_unpack _).
  vm_compute. exact I.
Defined.

Lemma main_creates_missing_key_witness :
  let w := sample_world [backup_key] 30 in
  occurs space "ssh-ed25519" = O ∧ occurs space "AAAAC3N" = O
  ∧ GitHub.well_formed (remote w) ∧ GitHub.single_page (remote w)
  ∧ titled "deploy-key" (GitHub.keys (remote w)) = []
  ∧ ∃ made,
      main GitHub.fetch_url 1
        (sample_params (Some "ssh-ed25519 AAAAC3N me@host") present) w
      = (Return (mkResult true [] (Some []) (Some (JObject made))),
         mkWorld (GitHub.mkStore [backup_key; made] 30 sample_stamp)
                 [list_request sample_session;
                  create_request sample_session "deploy-key"
                    "ssh-ed25519 AAAAC3N"]
                 (clock w))
      ∧ key_key made = "ssh-ed25519 AAAAC3N".
Proof.
  intros w.
  assert (occurs space "ssh-ed25519" = O) as Hp by reflexivity.
  assert (occurs space "AAAAC3N" = O) as Hd by reflexivity.
  assert (GitHub.single_page (remote w)) as Hs
    by (unfold GitHub.single_page; simpl; lia).
  assert (titled "deploy-key" (GitHub.keys (remote w)) = []) as Hno
    by reflexivity.
  split; [done|]. split; [done|]. split; [exact sample_well_formed_backup|].
  split; [done|]. split; [done|].
  exists (GitHub.created (remote w) "deploy-key" "ssh-ed25519 AAAAC3N").
  split; [|reflexivity].
  exact (main_creates_missing_key 0 "0123abcd" "deploy-key" "ssh-ed25519"
           "AAAAC3N" "me@host" true w Hp Hd sample_well_formed_backup Hs Hno).
Defined.

Lemma findall_reads_entries_witness :
  let entries := [(GitHub.page_url 2, "next"); (GitHub.page_url 3, "last")] in
  Forall (λ e, truthy e.1 = true ∧ occurs ">" e.1 = O
               ∧ truthy e.2 = true ∧ occurs dquote e.2 = O) entries
  ∧ findall (join ", " ((λ e, GitHub.link_entry e.1 e.2) <$> entries)) = entries.
Proof.
  intros entries.
  assert (Forall (λ e, truthy e.1 = true ∧ occurs ">" e.1 = O
                       ∧ truthy e.2 = true ∧ occurs dquote e.2 = O) entries)
    as H by (repeat constructor).
  split; [done|]. exact (findall_reads_entries entries H).
Defined.

Lemma strftime_reads_back_witness :
  let now := mkDatetime 2016 7 4 9 5 59 in
  (year now < 10000)%N ∧ (second now < 100)%N
  ∧ digits_value (substring 0 4 (strftime now)) = 2016%N
  ∧ digits_value (substring 17 2 (strftime now)) = 59%N.
Proof.
  intros now.
  assert (year now < 10000)%N as Hy by (simpl; lia).
  assert (month now < 100)%N as Hm by (simpl; lia).
  assert (day now < 100)%N as Hd by (simpl; lia).
  assert (hour now < 100)%N as Hh by (simpl; lia).
  assert (minute now < 100)%N as Hi by (simpl; lia).
  assert (second now < 100)%N as Hs by (simpl; lia).
  split; [done|]. split; [done|].
  destruct (strftime_reads_back "deploy-key" "ssh-rsa AAAA" now Hy Hm Hd Hh Hi Hs)
    as (H1 & _ & _ & _ & _ & H6).
  by split.
Defined.

Lemma present_returns_stored_key_witness :
  let w := sample_world [deploy_key; backup_key; deploy_twin] 30 in
  GitHub.well_formed (remote w) ∧ GitHub.single_page (remote w)
  ∧ ∃ r w' k,
      ensure_key_present GitHub.fetch_url 1 sample_session "deploy-key"
        "ssh-rsa BBBB" true false w = (Return r, w')
      ∧ key r = Some (JObject k)
      ∧ head (titled "deploy-key" (GitHub.keys (remote w'))) = Some k
      ∧ k ∈ GitHub.keys (remote w') ∧ key_title k = "deploy-key"
      ∧ key_key k = "ssh-rsa BBBB".
Proof.
  intros w. split; [exact sample_well_formed|]. split; [exact sample_single_page|].
  exact (present_returns_stored_key sample_session 0 "deploy-key" "ssh-rsa BBBB"
           true w sample_well_formed sample_single_page).
Defined.
